(** * convert_images.py: a shallow embedding and its specification

  The script is a thin driver around two collaborators: the file system
  (through [pathlib]) and the ImageMagick binding [wand].  The embedding
  keeps the script's own control flow ([convert_image],
  [convert_all_images]) as executable Rocq functions in a small
  state-and-exception monad, and takes the two collaborators as records of
  operations, so that every statement about the script holds for every
  behaviour of the library.  A POSIX directory tree and a toy image
  library instantiate the records where a statement needs a concrete run. *)

From Stdlib Require Import String Ascii List ZArith Bool Lia Arith.
From Stdlib Require Import DecimalString.
#[local] Set Warnings "-register-all".
Import ListNotations.
Open Scope string_scope.

(** ** Python strings *)

Module PyStr.

(** [str.lower] and [str.upper], on the ASCII letters; every other byte is
    left as it is. *)
Definition lower_ascii (c : ascii) : ascii :=
  let n := nat_of_ascii c in
  if (65 <=? n)%nat && (n <=? 90)%nat then ascii_of_nat (n + 32) else c.

Definition upper_ascii (c : ascii) : ascii :=
  let n := nat_of_ascii c in
  if (97 <=? n)%nat && (n <=? 122)%nat then ascii_of_nat (n - 32) else c.

Fixpoint lower (s : string) : string :=
  match s with
  | EmptyString => EmptyString
  | String c r => String (lower_ascii c) (lower r)
  end.

Fixpoint upper (s : string) : string :=
  match s with
  | EmptyString => EmptyString
  | String c r => String (upper_ascii c) (upper r)
  end.

(** [s.lstrip('.')] *)
Fixpoint lstrip_dot (s : string) : string :=
  match s with
  | String "."%char r => lstrip_dot r
  | _ => s
  end.

(** [c in s] for a one-character [c] *)
Fixpoint contains (c : ascii) (s : string) : bool :=
  match s with
  | EmptyString => false
  | String d r => Ascii.eqb c d || contains c r
  end.

(** [s.startswith(c)] for a one-character [c] *)
Definition startswith (c : ascii) (s : string) : bool :=
  match s with
  | String d _ => Ascii.eqb c d
  | EmptyString => false
  end.

(** [s.rfind('.')]: the index of the last dot, [None] for Python's -1. *)
Fixpoint rfind_dot (s : string) : option nat :=
  match s with
  | EmptyString => None
  | String c r =>
      match rfind_dot r with
      | Some i => Some (S i)
      | None => if Ascii.eqb c "."%char then Some 0%nat else None
      end
  end.

(** [str(n)] for an [int] *)
Definition str_int (z : Z) : string := NilZero.string_of_int (Z.to_int z).

(** [sep.join(l)] *)
Fixpoint join (sep : string) (l : list string) : string :=
  match l with
  | [] => ""
  | [x] => x
  | x :: r => x ++ sep ++ join sep r
  end.

(** [s.split('/')] *)
Fixpoint split_slash (s : string) : list string :=
  match s with
  | EmptyString => [""]
  | String c r =>
      if Ascii.eqb c "/"%char then "" :: split_slash r
      else match split_slash r with
           | h :: t => String c h :: t
           | [] => [String c ""]
           end
  end.

(** Truthiness of an optional [int]: [None] and [0] are false. *)
Definition truthy (x : option Z) : bool :=
  match x with
  | Some n => negb (n =? 0)%Z
  | None => false
  end.

(** [f'{x or d}'] for an optional [int] [x] and a string [d]. *)
Definition or_else (x : option Z) (d : string) : string :=
  match x with
  | Some n => if (n =? 0)%Z then d else str_int n
  | None => d
  end.

End PyStr.

(** ** Exceptions and outcomes *)

(** An instance of [Exception]: its class name and [str(e)]. *)
Record exn := mkExn { exn_class : string; exn_msg : string }.

Definition ValueError (msg : string) : exn := mkExn "ValueError" msg.

Inductive outcome (A : Type) : Type :=
| Ret (a : A)
| Raise (e : exn).
Arguments Ret {A} a.
Arguments Raise {A} e.

(** ** pathlib.PurePosixPath

    The operations the script uses, as CPython 3.11 defines them. *)

Module Pathlib.
Import PyStr.

(** A path is its root flag and its components; ["."] has none. *)
Record Path := mkPath { absolute : bool; parts : list string }.

(** [Path(s)]: empty and ["."] components are dropped. *)
Definition of_string (s : string) : Path :=
  mkPath (startswith "/" s)
         (filter (fun c => negb (String.eqb c "" || String.eqb c "."))
                 (split_slash s)).

(** [str(p)] *)
Definition str (p : Path) : string :=
  match parts p with
  | [] => if absolute p then "/" else "."
  | ps => (if absolute p then "/" else "") ++ join "/" ps
  end.

(** [p.name] *)
Definition name (p : Path) : string := last (parts p) "".

(** [p / child] for a one-component [child] *)
Definition joinpath (p : Path) (child : string) : Path :=
  mkPath (absolute p) (parts p ++ [child]).

(** The suffix of a file name:
    [i = name.rfind('.'); name[i:] if 0 < i < len(name) - 1 else ''] *)
Definition suffix_of (nm : string) : string :=
  match rfind_dot nm with
  | Some i =>
      if (0 <? i)%nat && (i <? String.length nm - 1)%nat
      then substring i (String.length nm - i) nm
      else ""
  | None => ""
  end.

(** [p.suffix] *)
Definition suffix (p : Path) : string := suffix_of (name p).

(** [p.stem]: the name without its suffix. *)
Definition stem_of (nm : string) : string :=
  substring 0 (String.length nm - String.length (suffix_of nm)) nm.

(** [repr] of a string, for the text of the error messages: in single
    quotes, or in double quotes when the string holds a single quote and no
    double one; the backslash, the quote in use and the control characters
    are escaped.  Bytes above 127 are kept as they are. *)
Definition double_quote : ascii := ascii_of_nat 34.

Definition hex_digit (n : nat) : ascii :=
  match get n "0123456789abcdef" with
  | Some c => c
  | None => "0"%char
  end.

Definition escape (quote c : ascii) : string :=
  let n := nat_of_ascii c in
  if Ascii.eqb c "\" then "\\"
  else if Ascii.eqb c quote then String "\" (String quote "")
  else if (n =? 10)%nat then "\n"
  else if (n =? 13)%nat then "\r"
  else if (n =? 9)%nat then "\t"
  else if (n <? 32)%nat || (n =? 127)%nat
  then "\x" ++ String (hex_digit (n / 16)) (String (hex_digit (n mod 16)) "")
  else String c "".

Fixpoint escape_all (quote : ascii) (s : string) : string :=
  match s with
  | EmptyString => EmptyString
  | String c r => escape quote c ++ escape_all quote r
  end.

Definition repr (s : string) : string :=
  let quote :=
    if contains "'" s && negb (contains double_quote s) then double_quote else "'"%char in
  String quote (escape_all quote s ++ String quote "").

(** [p.with_suffix(sfx)].  A suffix that holds a separator, does not start
    with a dot, or is a lone dot is refused with [ValueError], and so is a
    path without a name. *)
Definition with_suffix (p : Path) (sfx : string) : outcome Path :=
  if contains "/" sfx then Raise (ValueError ("Invalid suffix " ++ repr sfx))
  else if (negb (String.eqb sfx "") && negb (startswith "." sfx))
          || String.eqb sfx "."
  then Raise (ValueError ("Invalid suffix " ++ repr sfx))
  else
    let nm := name p in
    if String.eqb nm "" then
      Raise (ValueError ("PosixPath(" ++ repr (str p) ++ ") has an empty name"))
    else
      let old_suffix := suffix p in
      let nm' :=
        if String.eqb old_suffix "" then nm ++ sfx
        else substring 0 (String.length nm - String.length old_suffix) nm ++ sfx in
      Ret (mkPath (absolute p) (removelast (parts p) ++ [nm'])).

End Pathlib.
Export Pathlib.

(** ** The two collaborators *)

(** What the script asks of the file system: [Path.exists], [Path.is_dir]
  and [list(Path.glob(pattern))].  Each answers or raises: [exists] and
  [is_dir] pass on every [OSError] that is not a "not found", and [glob]
  refuses some patterns with [ValueError].  [glob] returns the matches in
  the order the file system enumerates them. *)
Record Filesystem (FS : Type) := {
fs_exists : Path -> FS -> outcome bool;
fs_is_dir : Path -> FS -> outcome bool;
fs_glob : Path -> string -> FS -> outcome (list Path);
}.
Arguments fs_exists {FS} _ _ _.
Arguments fs_is_dir {FS} _ _ _.
Arguments fs_glob {FS} _ _ _ _.

(** What the script asks of [wand.image.Image]: the constructor
  [Image(filename=...)], [img.transform(resize=...)], the setters of
  [img.compression_quality] and [img.format], and [img.save(filename=...)].
  Each may raise; [save] may also have touched the file system when it
  does.  Leaving the [with] block releases the image and is taken to do
  nothing else. *)
Record Wand (FS Image : Type) := {
wand_open : string -> FS -> outcome Image;
wand_transform : string -> Image -> outcome Image;
wand_set_compression_quality : Z -> Image -> outcome Image;
wand_set_format : string -> Image -> outcome Image;
wand_save : string -> Image -> FS -> FS * option exn;
}.
Arguments wand_open {FS Image} _ _ _.
Arguments wand_transform {FS Image} _ _ _.
Arguments wand_set_compression_quality {FS Image} _ _ _.
Arguments wand_set_format {FS Image} _ _ _.
Arguments wand_save {FS Image} _ _ _ _.

(** ** The world and the monad of the script *)

(** The calls the script makes: entering [convert_image], and each request
  that reaches the image library. *)
Inductive event :=
| EvConvert (input_path : Path)
| EvOpen (filename : string)
| EvTransform (resize : string)
| EvQuality (quality : Z)
| EvFormat (format : string)
| EvSave (filename : string).

(** The state a run threads: the file system, what was written to standard
  output (one string per [print], its [end] included), and the calls made
  so far. *)
Record World (FS : Type) := mkWorld {
fs : FS;
stdout : list string;
trace : list event;
}.
Arguments mkWorld {FS} _ _ _.
Arguments fs {FS} _.
Arguments stdout {FS} _.
Arguments trace {FS} _.

Definition M (FS A : Type) : Type := World FS -> outcome A * World FS.

Section Monad.
Context {FS : Type}.

Definition ret {A} (a : A) : M FS A := fun w => (Ret a, w).

Definition raise {A} (e : exn) : M FS A := fun w => (Raise e, w).

Definition bind {A B} (m : M FS A) (k : A -> M FS B) : M FS B :=
  fun w =>
    match m w with
    | (Ret a, w') => k a w'
    | (Raise e, w') => (Raise e, w')
    end.

(** [try: body / except Exception as e: handler(e)] *)
Definition try_except {A} (body : M FS A) (handler : exn -> M FS A) : M FS A :=
  fun w =>
    match body w with
    | (Ret a, w') => (Ret a, w')
    | (Raise e, w') => handler e w'
    end.

(** An outcome computed without touching the world. *)
Definition lift {A} (o : outcome A) : M FS A := fun w => (o, w).

(** [print(s, end=e)] *)
Definition print_end (s e : string) : M FS unit :=
  fun w => (Ret tt, mkWorld (fs w) (stdout w ++ [s ++ e]) (trace w)).

Definition newline : string := String (ascii_of_nat 10) "".

(** [print(s)] *)
Definition print (s : string) : M FS unit := print_end s newline.

Definition log (e : event) : M FS unit :=
  fun w => (Ret tt, mkWorld (fs w) (stdout w) (trace w ++ [e])).

(** A query of the file system, which answers or raises. *)
Definition ask {A} (q : FS -> outcome A) : M FS A := fun w => (q (fs w), w).

End Monad.

Declare Scope py_scope.
Delimit Scope py_scope with py.
Notation "x <- m ;; k" := (bind m (fun x => k))
(at level 61, m at next level, right associativity) : py_scope.
Notation "' pat <- m ;; k" := (bind m (fun x => match x with pat => k end))
(at level 61, pat pattern, m at next level, right associativity) : py_scope.
Notation "m ;; k" := (bind m (fun _ => k))
(at level 61, right associativity) : py_scope.
Open Scope py_scope.

(** ** The script *)

Section Script.
Context {FS Image : Type}.
Variable os : Filesystem FS.
Variable wand : Wand FS Image.

Import PyStr.

(** The five requests to the library, each recorded before it is served. *)
Definition Image_open (filename : string) : M FS Image :=
  log (EvOpen filename) ;;
  (fun w => (wand_open wand filename (fs w), w)).

Definition Image_transform (resize : string) (img : Image) : M FS Image :=
  log (EvTransform resize) ;; lift (wand_transform wand resize img).

Definition Image_set_compression_quality (q : Z) (img : Image) : M FS Image :=
  log (EvQuality q) ;; lift (wand_set_compression_quality wand q img).

Definition Image_set_format (f : string) (img : Image) : M FS Image :=
  log (EvFormat f) ;; lift (wand_set_format wand f img).

Definition Image_save (filename : string) (img : Image) : M FS unit :=
  log (EvSave filename) ;;
  (fun w =>
     let '(fs', r) := wand_save wand filename img (fs w) in
     (match r with None => Ret tt | Some e => Raise e end,
      mkWorld fs' (stdout w) (trace w))).

(** [convert_image(input_path, output_format, output_path=None,
                   width=None, height=None, quality=None)] *)
Definition convert_image (input_path : Path) (output_format : string)
    (output_path : option Path) (width height quality : option Z) : M FS bool :=
  log (EvConvert input_path) ;;
  output_path <-
    match output_path with
    | None => lift (with_suffix input_path ("." ++ lower output_format))
    | Some p => ret p
    end ;;
  try_except
    (img <- Image_open (str input_path) ;;
     img <- (if truthy width || truthy height
             then Image_transform (or_else width "" ++ "x" ++ or_else height "") img
             else ret img) ;;
     img <- match quality with
            | Some q => Image_set_compression_quality q img
            | None => ret img
            end ;;
     img <- Image_set_format (lower output_format) img ;;
     Image_save (str output_path) img ;;
     ret true)
    (fun e => print ("Error: " ++ exn_msg e) ;; ret false).

(** The loop of [convert_all_images] with its two counters. *)
Fixpoint convert_loop (image_files : list Path) (output_format : string)
    (width height quality : option Z) (successful failed : Z) : M FS (Z * Z) :=
  match image_files with
  | [] => ret (successful, failed)
  | image_file :: rest =>
      print_end ("  Converting: " ++ name image_file ++ "... ") "" ;;
      ok <- convert_image image_file output_format None width height quality ;;
      if ok : bool then
        print "✓" ;;
        convert_loop rest output_format width height quality (successful + 1) failed
      else
        print "✗" ;;
        convert_loop rest output_format width height quality successful (failed + 1)
  end.

(** [convert_all_images(folder_path, input_format, output_format,
                        width=None, height=None, quality=None)] *)
Definition convert_all_images (folder_path input_format output_format : string)
    (width height quality : option Z) : M FS unit :=
  let folder := of_string folder_path in
  ex <- ask (fs_exists os folder) ;;
  if negb ex then
    print ("Error: Folder '" ++ folder_path ++ "' does not exist.")
  else
  isd <- ask (fs_is_dir os folder) ;;
  if negb isd then
    print ("Error: '" ++ folder_path ++ "' is not a directory.")
  else
  let input_format := lstrip_dot (lower input_format) in
  let output_format := lstrip_dot (lower output_format) in
  let pattern := "*." ++ input_format in
  image_files <- ask (fs_glob os folder pattern) ;;
  match image_files with
  | [] => print ("No " ++ upper input_format ++ " files found in '" ++ folder_path ++ "'")
  | _ :: _ =>
      print ("Found " ++ str_int (Z.of_nat (length image_files)) ++ " "
             ++ upper input_format ++ " file(s) in '" ++ folder_path ++ "'") ;;
      print ("Converting to " ++ upper output_format ++ "...") ;;
      (if truthy width || truthy height
       then print ("Resizing to: " ++ or_else width "auto" ++ "x" ++ or_else height "auto")
       else ret tt) ;;
      (match quality with
       | Some q => if (q =? 0)%Z then ret tt else print ("Quality: " ++ str_int q)
       | None => ret tt
       end) ;;
      print "" ;;
      '(successful, failed) <-
        convert_loop image_files output_format width height quality 0 0 ;;
      print (newline ++ "Conversion complete:") ;;
      print ("  Successful: " ++ str_int successful) ;;
      print ("  Failed: " ++ str_int failed)
  end.

End Script.

(** ** A POSIX directory tree *)

Module Posix.
Import PyStr.

(** A directory lists its entries in the order the file system enumerates
    them; entry names within one directory are distinct. *)
Inductive node :=
| File (data : string)
| Dir (entries : list (string * node)).

Fixpoint find_entry (nm : string) (es : list (string * node)) : option node :=
  match es with
  | [] => None
  | (k, v) :: r => if String.eqb nm k then Some v else find_entry nm r
  end.

(** Replace the entry called [nm], or add it at the end. *)
Fixpoint set_entry (nm : string) (v : node) (es : list (string * node))
  : list (string * node) :=
  match es with
  | [] => [(nm, v)]
  | (k, u) :: r => if String.eqb nm k then (k, v) :: r else (k, u) :: set_entry nm v r
  end.

(** Resolution of a list of components from a node. *)
Fixpoint resolve (ps : list string) (n : node) : option node :=
  match ps with
  | [] => Some n
  | p :: r =>
      match n with
      | Dir es =>
          match find_entry p es with
          | Some c => resolve r c
          | None => None
          end
      | File _ => None
      end
  end.

(** Paths are resolved from the root of the tree, which is also the
    working directory. *)
Definition lookup (p : Path) (root : node) : option node := resolve (parts p) root.

(** Create or overwrite a regular file; [None] when a directory on the way
    is missing, or the target is a directory. *)
Fixpoint write_parts (ps : list string) (data : string) (n : node) : option node :=
  match ps, n with
  | [], _ => None
  | _, File _ => None
  | [p], Dir es =>
      match find_entry p es with
      | Some (Dir _) => None
      | _ => Some (Dir (set_entry p (File data) es))
      end
  | p :: r, Dir es =>
      match find_entry p es with
      | Some c =>
          match write_parts r data c with
          | Some c' => Some (Dir (set_entry p c' es))
          | None => None
          end
      | None => None
      end
  end.

Definition write (p : Path) (data : string) (root : node) : option node :=
  write_parts (parts p) data root.

(** The content of the regular file at [p], if there is one. *)
Definition read (p : Path) (root : node) : option string :=
  match lookup p root with
  | Some (File d) => Some d
  | _ => None
  end.

(** [fnmatch] on a POSIX flavour: case-sensitive, ['*'] matches any run of
    characters (a leading dot included, as [Path.glob] has it), ['?'] any
    one character.  Bracket expressions are not interpreted: the model
    covers the patterns without a ['['. *)
Fixpoint star (k : string -> bool) (s : string) : bool :=
  k s || match s with
         | EmptyString => false
         | String _ r => star k r
         end.

Fixpoint fnmatch (pat : string) : string -> bool :=
  match pat with
  | EmptyString => fun s => String.eqb s ""
  | String c p =>
      if Ascii.eqb c "*"%char then star (fnmatch p)
      else if Ascii.eqb c "?"%char then
        fun s => match s with
                 | String _ r => fnmatch p r
                 | EmptyString => false
                 end
      else
        fun s => match s with
                 | String d r => Ascii.eqb c d && fnmatch p r
                 | EmptyString => false
                 end
  end.

(** The limits of Linux on one component and on a whole path. *)
Definition NAME_MAX : nat := 255.
Definition PATH_MAX : nat := 4096.

Definition ENAMETOOLONG (p : Path) : exn :=
  mkExn "OSError" ("[Errno 36] File name too long: " ++ repr (str p)).

(** What walking down a path finds: a node, nothing ([ENOENT], or
    [ENOTDIR] below a regular file), or a component the file system refuses
    as too long.  A name longer than [NAME_MAX] cannot be an entry, so the
    length is looked at when the component is not found. *)
Inductive walked :=
| Found (n : node)
| Missing
| TooLong.

Fixpoint walk (ps : list string) (n : node) : walked :=
  match ps with
  | [] => Found n
  | c :: r =>
      match n with
      | Dir es =>
          match find_entry c es with
          | Some child => walk r child
          | None => if (NAME_MAX <? String.length c)%nat then TooLong else Missing
          end
      | File _ => Missing
      end
  end.

(** [p.stat()], as [exists] and [is_dir] use it: the node, [None] for the
    errors they take for "not there", and the error they pass on.  Every
    node of the tree can be searched and read: permissions are not
    modelled. *)
Definition stat (p : Path) (root : node) : outcome (option node) :=
  if (PATH_MAX <=? String.length (str p))%nat then Raise (ENAMETOOLONG p)
  else match walk (parts p) root with
       | Found n => Ret (Some n)
       | Missing => Ret None
       | TooLong => Raise (ENAMETOOLONG p)
       end.

(** [p.exists()] and [p.is_dir()] *)
Definition exists_ (p : Path) (root : node) : outcome bool :=
  match stat p root with
  | Ret (Some _) => Ret true
  | Ret None => Ret false
  | Raise e => Raise e
  end.

Definition is_dir (p : Path) (root : node) : outcome bool :=
  match stat p root with
  | Ret (Some (Dir _)) => Ret true
  | Ret _ => Ret false
  | Raise e => Raise e
  end.

(** ['**' in pattern] *)
Fixpoint double_star (s : string) : bool :=
  match s with
  | EmptyString => false
  | String c r =>
      match r with
      | String d _ => (Ascii.eqb c "*" && Ascii.eqb d "*") || double_star r
      | EmptyString => false
      end
  end.

(** [list(folder.glob(pattern))] for a pattern of one component.  A
    pattern with ['**'] inside a component is refused with [ValueError];
    otherwise the result is the entries of the directory itself whose name
    matches, files and directories alike, in enumeration order, and nothing
    when the folder is not a directory.  Patterns with a ['/'] (which
    descend) are not covered. *)
Definition glob (folder : Path) (pattern : string) (root : node) : outcome (list Path) :=
  if double_star pattern then
    Raise (ValueError "Invalid pattern: '**' can only be an entire path component")
  else
    match stat folder root with
    | Raise e => Raise e
    | Ret (Some (Dir es)) =>
        Ret (map (joinpath folder) (filter (fnmatch pattern) (map fst es)))
    | Ret _ => Ret []
    end.

Definition os : Filesystem node :=
  {| fs_exists := exists_; fs_is_dir := is_dir; fs_glob := glob |}.

End Posix.

(** ** A toy image library

  It decodes any non-empty regular file, accepts every request, and encodes
  an image as a text that shows the format, the geometry and the quality
  asked for.  It stands in for ImageMagick wherever a statement is run on a
  concrete input. *)

Module Toy.
Import PyStr Posix.

Record image := mkImage {
  pixels : string;
  geometry : string;
  quality : option Z;
  format : string;
}.

Definition encode (img : image) : string :=
  format img ++ "[" ++ geometry img ++ "]"
  ++ match quality img with Some q => "q" ++ str_int q | None => "" end
  ++ ":" ++ pixels img.

Definition blob_error (filename : string) : exn :=
  mkExn "BlobError" ("unable to open image '" ++ filename ++ "'").

Definition open (filename : string) (root : node) : outcome image :=
  match read (of_string filename) root with
  | Some d =>
      if String.eqb d "" then
        Raise (mkExn "MissingDelegateError"
                     ("no decode delegate for this image format '" ++ filename ++ "'"))
      else Ret (mkImage d "" None "")
  | None => Raise (blob_error filename)
  end.

Definition save (filename : string) (img : image) (root : node) : node * option exn :=
  match write (of_string filename) (encode img) root with
  | Some root' => (root', None)
  | None => (root, Some (blob_error filename))
  end.

Definition wand : Wand node image :=
  {| wand_open := open;
     wand_transform := fun g img => Ret (mkImage (pixels img) g (quality img) (format img));
     wand_set_compression_quality :=
       fun q img => Ret (mkImage (pixels img) (geometry img) (Some q) (format img));
     wand_set_format :=
       fun f img => Ret (mkImage (pixels img) (geometry img) (quality img) f);
     wand_save := save |}.

(** A run of the script on a tree, from an empty output and an empty
    trace. *)
Definition start (root : node) : World node := mkWorld root [] [].

Definition run_convert_image (root : node) (input_path : Path) (output_format : string)
    (output_path : option Path) (width height quality : option Z) :=
  convert_image wand input_path output_format output_path width height quality (start root).

Definition run_convert_all_images (root : node)
    (folder_path input_format output_format : string) (width height quality : option Z) :=
  convert_all_images os wand folder_path input_format output_format
                     width height quality (start root).

End Toy.

Definition imgs3 : Posix.node :=
Posix.Dir [("imgs", Posix.Dir [("a.svg", Posix.File "<svg>A</svg>");
                               ("b.svg", Posix.File "");
                               ("c.svg", Posix.File "<svg>C</svg>");
                               ("notes.txt", Posix.File "hello")])].


(** ** Observations on a trace *)

(** The files [convert_image] was entered for, in order. *)
Definition attempts (t : list event) : list Path :=
flat_map (fun e => match e with EvConvert p => [p] | _ => [] end) t.

(** The resize requests that reached the library, in order. *)
Definition resizes (t : list event) : list string :=
flat_map (fun e => match e with EvTransform g => [g] | _ => [] end) t.

(** The file names the library was asked to write, in order. *)
Definition saves (t : list event) : list string :=
flat_map (fun e => match e with EvSave f => [f] | _ => [] end) t.

(** The output path [convert_image] works with: the one given, or the one it
  derives from the input path. *)
Definition output_path_of (input_path : Path) (output_format : string)
  (output_path : option Path) : outcome Path :=
match output_path with
| None => with_suffix input_path ("." ++ PyStr.lower output_format)
| Some p => Ret p
end.

(** The default output path of [image_file] can be computed. *)
Definition derivable (output_format : string) (image_file : Path) : Prop :=
exists o, with_suffix image_file ("." ++ PyStr.lower output_format) = Ret o.

(** The success and failure marks on standard output. *)
Definition successes (out : list string) : nat :=
count_occ string_dec out ("✓" ++ newline).

Definition failures (out : list string) : nat :=
count_occ string_dec out ("✗" ++ newline).

(** The lines [convert_all_images] prints between the enumeration and the
  loop. *)
Definition banner (folder_path input_format output_format : string)
  (width height quality : option Z) (found : nat) : list string :=
let found_line :=
  ("Found " ++ PyStr.str_int (Z.of_nat found) ++ " "
   ++ PyStr.upper input_format ++ " file(s) in '" ++ folder_path ++ "'") ++ newline in
let target_line := ("Converting to " ++ PyStr.upper output_format ++ "...") ++ newline in
let resize_line :=
  ("Resizing to: " ++ PyStr.or_else width "auto" ++ "x"
   ++ PyStr.or_else height "auto") ++ newline in
let quality_line := ("Quality: " ++ PyStr.or_else quality "") ++ newline in
app [found_line; target_line]
    (app (if PyStr.truthy width || PyStr.truthy height then [resize_line] else [])
         (app (if PyStr.truthy quality then [quality_line] else [])
              [newline])).

(** The enumeration of lines 100-105: the matches of [*.<input_format>] in
  the folder, the format lower-cased and stripped of leading dots. *)
Definition image_files_of {FS : Type} (os : Filesystem FS)
  (folder_path input_format : string) (files : FS) : outcome (list Path) :=
fs_glob os (of_string folder_path)
        ("*." ++ PyStr.lstrip_dot (PyStr.lower input_format)) files.

(** The files enumerated; none when the enumeration raises. *)
Definition enumerated {FS : Type} (os : Filesystem FS)
  (folder_path input_format : string) (files : FS) : list Path :=
match image_files_of os folder_path input_format files with
| Ret image_files => image_files
| Raise _ => []
end.


(** [s.endswith(t)] *)
Definition endswith (s t : string) : bool :=
(String.length t <=? String.length s)%nat
&& String.eqb (substring (String.length s - String.length t) (String.length t) s) t.

(** A format without glob metacharacters and separators. *)
Definition glob_literal (f : string) : bool :=
negb (PyStr.contains "*" f || PyStr.contains "?" f
      || PyStr.contains "[" f || PyStr.contains "/" f).

(** The extension of [nm] equals the format [f] up to letter case. *)
Definition extension_matches (nm f : string) : bool :=
String.eqb (PyStr.lower (suffix_of nm))
           ("." ++ PyStr.lstrip_dot (PyStr.lower f)).

(** A requested dimension is absent or a positive integer. *)
Definition positive_dim (x : option Z) : Prop :=
match x with
| Some n => (0 < n)%Z
| None => True
end.

(** A dimension in a geometry: its decimal digits, or nothing when it is
  left automatic. *)
Definition dim (x : option Z) : string :=
match x with
| Some n => PyStr.str_int n
| None => ""
end.

(** The input path with the suffix of its name replaced by [sfx]. *)
Definition suffix_replaced (p : Path) (sfx : string) : Path :=
mkPath (absolute p) (removelast (parts p) ++ [stem_of (name p) ++ sfx]).

(** Two more trees: one whose only image has an upper-case extension, next
  to a sub-directory with a lower-case one; one with a PNG to convert to
  PNG. *)
Definition upper_tree : Posix.node :=
Posix.Dir [("imgs", Posix.Dir [("A.SVG", Posix.File "<svg>A</svg>");
                               ("sub", Posix.Dir [("b.svg", Posix.File "<svg>B</svg>")])])].

Definition mixed_tree : Posix.node :=
Posix.Dir [("imgs", Posix.Dir [("A.SVG", Posix.File "<svg>A</svg>");
                               ("a.svg", Posix.File "<svg>a</svg>");
                               ("a.svg.bak", Posix.File "<svg>a</svg>");
                               ("icons.svg", Posix.Dir []);
                               ("sub", Posix.Dir [("b.svg", Posix.File "<svg>B</svg>")])])].

Definition png_tree : Posix.node :=
Posix.Dir [("imgs", Posix.Dir [("a.png", Posix.File "PNGDATA")])].

(** ** More observations *)

(** The quality values and the formats that reached the library. *)
Definition qualities (t : list event) : list Z :=
  flat_map (fun e => match e with EvQuality q => [q] | _ => [] end) t.

Definition formats (t : list event) : list string :=
  flat_map (fun e => match e with EvFormat f => [f] | _ => [] end) t.

(** The format as [convert_all_images] works with it: lower-cased, then
    stripped of leading dots. *)
Definition normalize (f : string) : string := PyStr.lstrip_dot (PyStr.lower f).

(** The requests of a call of [convert_image] in which the library serves
    every one of them. *)
Definition requests_of_success (input_path output_path : Path) (output_format : string)
    (width height quality : option Z) : list event :=
  app [EvOpen (str input_path)]
      (app (if PyStr.truthy width || PyStr.truthy height
            then [EvTransform (PyStr.or_else width "" ++ "x" ++ PyStr.or_else height "")]
            else [])
           (app (match quality with Some q => [EvQuality q] | None => [] end)
                [EvFormat (PyStr.lower output_format); EvSave (str output_path)])).

(** What a request of a batch may be, given the files enumerated and the
    arguments of the batch: a call or an open for one of the files, a save at
    the default output path of one of them, the geometry and the quality the
    arguments give, the output format in its normal form. *)
Definition batch_request (image_files : list Path) (output_format : string)
    (width height quality : option Z) (e : event) : Prop :=
  match e with
  | EvConvert p => In p image_files
  | EvOpen f => In f (map str image_files)
  | EvTransform g =>
      PyStr.truthy width || PyStr.truthy height = true
      /\ g = PyStr.or_else width "" ++ "x" ++ PyStr.or_else height ""
  | EvQuality q => quality = Some q
  | EvFormat f => f = normalize output_format
  | EvSave f =>
      In f (map (fun p => str (suffix_replaced p ("." ++ normalize output_format)))
                image_files)
  end.

(** ** Start-up: locating ImageMagick (lines 13-28) *)

Module Startup.

(** [os.environ] *)
Definition environ := string -> option string.

(** [os.environ[k] = v] *)
Definition setenv (k v : string) (env : environ) : environ :=
  fun k' => if String.eqb k' k then Some v else env k'.

(** [c.isspace()] on the ASCII range. *)
Definition is_space (c : ascii) : bool :=
  let n := nat_of_ascii c in
  ((9 <=? n)%nat && (n <=? 13)%nat) || ((28 <=? n)%nat && (n <=? 32)%nat).

(** [s.lstrip()], [s.rstrip()], [s.strip()] *)
Fixpoint lstrip (s : string) : string :=
  match s with
  | EmptyString => EmptyString
  | String c r => if is_space c then lstrip r else s
  end.

Fixpoint rstrip (s : string) : string :=
  match s with
  | EmptyString => EmptyString
  | String c r =>
      match rstrip r with
      | EmptyString => if is_space c then EmptyString else String c EmptyString
      | r' => String c r'
      end
  end.

Definition strip (s : string) : string := rstrip (lstrip s).

(** [os.path.join(a, b)] for a relative [b] *)
Definition path_join (a b : string) : string :=
  if String.eqb a "" || endswith a "/" then a ++ b else a ++ "/" ++ b.

Definition NUL : ascii := ascii_of_nat 0.

(** The command the script runs. *)
Definition brew_prefix : list string := ["brew"; "--prefix"; "imagemagick"].

(** Lines 14-28.  [run] is [subprocess.run(..., capture_output=True,
    text=True, check=True)] reduced to its outcome: the standard output of
    the command, or the exception raised (command missing, non-zero exit).
    The result is the environment afterwards and the commands run.  An
    assignment to [os.environ] raises [ValueError] for a value with a null
    byte, before anything is stored; the bare [except] swallows it like every
    other exception. *)
Definition startup (run : list string -> outcome string) (env : environ)
  : environ * list (list string) :=
  match env "MAGICK_HOME" with
  | Some _ => (env, [])
  | None =>
      (match run brew_prefix with
       | Raise _ => env
       | Ret out =>
           let magick_home := strip out in
           if PyStr.contains NUL magick_home then env
           else
             let env1 := setenv "MAGICK_HOME" magick_home env in
             let lib_path := path_join magick_home "lib" in
             match env1 "DYLD_LIBRARY_PATH" with
             | Some old => setenv "DYLD_LIBRARY_PATH" (lib_path ++ ":" ++ old) env1
             | None => setenv "DYLD_LIBRARY_PATH" lib_path env1
             end
       end,
       [brew_prefix])
  end.

(** Two environments to run it on. *)
Definition bare_env : environ :=
  fun k => if String.eqb k "PATH" then Some "/usr/bin" else None.

Definition dyld_env : environ :=
  fun k => if String.eqb k "DYLD_LIBRARY_PATH" then Some "/usr/local/lib" else bare_env k.

Definition brew_ok (cmd : list string) : outcome string :=
  Ret ("/opt/homebrew/opt/imagemagick" ++ newline).

Definition brew_missing (cmd : list string) : outcome string :=
  Raise (mkExn "FileNotFoundError" "[Errno 2] No such file or directory: 'brew'").

End Startup.

(** A folder whose only image cannot be decoded. *)
Definition corrupt_tree : Posix.node :=
  Posix.Dir [("imgs", Posix.Dir [("b.svg", Posix.File "")])].

(** A name of 300 letters, longer than any file system accepts, and a
    folder without any image. *)
Fixpoint repeat_string (n : nat) (c : ascii) : string :=
  match n with
  | O => EmptyString
  | S k => String c (repeat_string k c)
  end.

Definition long_name : string := repeat_string 300 "a".


(* ================================================================== *)
(** * Properties *)

(** ** Proof steps *)

(** Reduce the projections of a world and the plumbing of the monad, and
  nothing else. *)
Ltac step_world := cbn beta iota zeta delta [fs stdout trace fst snd].

(** Split on the innermost scrutinee of the goal: the next answer of the
  library, or the next test of the script. *)
Ltac split_innermost :=
match goal with
| |- context [match ?x with _ => _ end] =>
    lazymatch x with
    | context [match _ with _ => _ end] => fail
    | _ => destruct x eqn:?
    end
end.

(** Unfold one call of [convert_image] down to the requests it makes. *)
Ltac unfold_convert_image :=
unfold convert_image, output_path_of, Image_open, Image_transform,
  Image_set_compression_quality, Image_set_format, Image_save,
  try_except, bind, log, lift, ret, print, print_end;
step_world.

Ltac step_header := cbn beta iota zeta delta [fs stdout trace negb].

(** Unfold [convert_all_images] down to its tests and prints. *)
Ltac unfold_header :=
unfold convert_all_images, bind, ask, ret, print, print_end; step_header.

(** ** Strings and paths *)

Example with_suffix_png :
with_suffix (of_string "imgs/a.svg") ".png" = Ret (of_string "imgs/a.png").
Proof. reflexivity. Qed.

Example with_suffix_two_dots :
with_suffix (of_string "a.tar.gz") ".png" = Ret (of_string "a.tar.png").
Proof. reflexivity. Qed.

Example with_suffix_hidden :
with_suffix (of_string ".bashrc") ".png" = Ret (of_string ".bashrc.png").
Proof. reflexivity. Qed.

Example with_suffix_separator :
with_suffix (of_string "x/a.svg") ".a/b" = Raise (ValueError "Invalid suffix '.a/b'").
Proof. reflexivity. Qed.

Example repr_quotes :
  repr "it's" = String double_quote ("it's" ++ String double_quote "")
  /\ repr ("a" ++ String double_quote "b'c")
     = "'a" ++ String double_quote "b\'c'".
Proof. split; reflexivity. Qed.

Example repr_escapes :
  repr ("a" ++ newline ++ "b\c" ++ String (ascii_of_nat 1) (String (ascii_of_nat 127) ""))
  = "'a\nb\\c\x01\x7f'".
Proof. reflexivity. Qed.

Example stat_examples :
  Posix.exists_ (of_string "imgs") imgs3 = Ret true
  /\ Posix.exists_ (of_string ("nope/" ++ long_name)) imgs3 = Ret false
  /\ Posix.exists_ (of_string ("imgs/a.svg/" ++ long_name)) imgs3 = Ret false
  /\ Posix.is_dir (of_string ("imgs/" ++ long_name)) imgs3
     = Raise (Posix.ENAMETOOLONG (of_string ("imgs/" ++ long_name)))
  /\ Posix.exists_ (of_string (repeat_string 255 "a")) imgs3 = Ret false
  /\ Posix.glob (of_string "nope") "*.svg" imgs3 = Ret []
  /\ Posix.glob (of_string long_name) "*.svg" imgs3
     = Raise (Posix.ENAMETOOLONG (of_string long_name)).
Proof. repeat split; vm_compute; reflexivity. Qed.

Example str_int_examples :
PyStr.str_int 1024 = "1024" /\ PyStr.str_int (-5) = "-5" /\ PyStr.str_int 0 = "0".
Proof. repeat split; reflexivity. Qed.

Section Trace.

Lemma attempts_app (t u : list event) : attempts (t ++ u) = (attempts t ++ attempts u)%list.
Proof. apply flat_map_app. Qed.

Lemma resizes_app (t u : list event) : resizes (t ++ u) = (resizes t ++ resizes u)%list.
Proof. apply flat_map_app. Qed.

Lemma saves_app (t u : list event) : saves (t ++ u) = (saves t ++ saves u)%list.
Proof. apply flat_map_app. Qed.

End Trace.

(** ** One conversion *)

Section ConvertImage.
Context {FS Image : Type}.
Variable wand : Wand FS Image.

(** A call either raises the [ValueError] of the default output path, the
    library untouched, or returns a boolean after some library requests;
    [False] comes with one line [Error: ...] on standard output. *)
Lemma convert_image_run (input_path : Path) (output_format : string)
    (output_path : option Path) (width height quality : option Z) (w : World FS) :
  match output_path_of input_path output_format output_path with
  | Raise e =>
      convert_image wand input_path output_format output_path width height quality w
      = (Raise e, mkWorld (fs w) (stdout w) (trace w ++ [EvConvert input_path]))
  | Ret _ =>
      exists (b : bool) (fs' : FS) (out : list string) (evs : list event),
        convert_image wand input_path output_format output_path width height quality w
        = (Ret b, mkWorld fs' (stdout w ++ out) (trace w ++ EvConvert input_path :: evs))
        /\ attempts evs = []
        /\ (if b then out = []
            else exists e, out = ["Error: " ++ exn_msg e ++ newline])
  end.
Proof.
  destruct output_path as [p|]; cbn [output_path_of];
    [|destruct (with_suffix input_path ("." ++ PyStr.lower output_format)) eqn:E].
  3: { unfold_convert_image. rewrite E. reflexivity. }
  all: unfold_convert_image; try rewrite E; step_world;
    repeat (split_innermost; step_world);
    rewrite <- ?app_assoc; cbn [app].
  all: first
    [ exists true; eexists _, [], _; rewrite app_nil_r;
      split; [reflexivity|split; reflexivity]
    | exists false; eexists _, _, _;
      split; [reflexivity|split; [reflexivity|eexists; reflexivity]] ].
Qed.

(** The resize requests of one call: one, with the geometry
    [<width>x<height>], when the image opens and a dimension is truthy;
    none otherwise. *)
Lemma convert_image_resizes (input_path : Path) (output_format : string)
    (output_path : option Path) (width height quality : option Z) (w : World FS) :
  resizes (trace (snd (convert_image wand input_path output_format output_path
                                     width height quality w)))
  = (resizes (trace w) ++
     match output_path_of input_path output_format output_path,
           wand_open wand (str input_path) (fs w) with
     | Ret _, Ret _ =>
         if PyStr.truthy width || PyStr.truthy height
         then [(PyStr.or_else width "" ++ "x" ++ PyStr.or_else height "")%string]
         else []
     | _, _ => []
     end)%list.
Proof.
  destruct output_path as [p|]; cbn [output_path_of];
    [|destruct (with_suffix input_path ("." ++ PyStr.lower output_format)) eqn:E].
  all: unfold_convert_image; try rewrite E; step_world;
    repeat (split_innermost; step_world);
    rewrite ?resizes_app; cbn [resizes flat_map app];
    rewrite ?app_nil_r; try reflexivity; congruence.
Qed.

(** The files one call asks the library to write: at most one, and then
    the output path. *)
Lemma convert_image_saves (input_path : Path) (output_format : string)
    (output_path : option Path) (width height quality : option Z) (w : World FS) :
  exists fs : list string,
    saves (trace (snd (convert_image wand input_path output_format output_path
                                     width height quality w)))
    = (saves (trace w) ++ fs)%list
    /\ (fs = [] \/
        exists o, output_path_of input_path output_format output_path = Ret o
                  /\ fs = [str o]).
Proof.
  destruct output_path as [p|]; cbn [output_path_of];
    [|destruct (with_suffix input_path ("." ++ PyStr.lower output_format)) eqn:E].
  all: unfold_convert_image; try rewrite E; step_world;
    repeat (split_innermost; step_world);
    rewrite ?saves_app; cbn [saves flat_map app]; rewrite ?app_nil_r.
  all: first
    [ exists []; rewrite app_nil_r; split; [reflexivity|left; reflexivity]
    | eexists [_]; split; [reflexivity|right; eexists; split; reflexivity] ].
Qed.

End ConvertImage.

(** ** The batch *)

Section Batch.
Context {FS Image : Type}.
Variable os : Filesystem FS.
Variable wand : Wand FS Image.


(** Lines 89-97: a folder that is missing, or is not a directory, is
    reported on standard output and nothing else happens. *)
Lemma convert_all_images_invalid_folder_run
    (folder_path input_format output_format : string)
    (width height quality : option Z) (w : World FS) :
  fs_exists os (of_string folder_path) (fs w) = Ret false
  \/ (fs_exists os (of_string folder_path) (fs w) = Ret true
      /\ fs_is_dir os (of_string folder_path) (fs w) = Ret false) ->
  convert_all_images os wand folder_path input_format output_format
                     width height quality w
  = (Ret tt,
     mkWorld (fs w)
       (stdout w ++
        [(match fs_exists os (of_string folder_path) (fs w) with
          | Ret true => "Error: '" ++ folder_path ++ "' is not a directory."
          | _ => "Error: Folder '" ++ folder_path ++ "' does not exist."
          end)
         ++ newline])
       (trace w)).
Proof.
  intros [H|[H1 H2]]; unfold_header.
  - rewrite H; step_header. reflexivity.
  - rewrite H1; step_header. rewrite H2; step_header. reflexivity.
Qed.

(** Lines 91, 95 and 105 stand outside every [try]: an exception of
    [exists], [is_dir] or [glob] leaves [convert_all_images] as it is, with
    nothing printed and nothing asked of the library. *)
Lemma convert_all_images_check_raises
    (folder_path input_format output_format : string)
    (width height quality : option Z) (w : World FS) (e : exn) :
  fs_exists os (of_string folder_path) (fs w) = Raise e
  \/ (fs_exists os (of_string folder_path) (fs w) = Ret true
      /\ fs_is_dir os (of_string folder_path) (fs w) = Raise e)
  \/ (fs_exists os (of_string folder_path) (fs w) = Ret true
      /\ fs_is_dir os (of_string folder_path) (fs w) = Ret true
      /\ fs_glob os (of_string folder_path)
                 ("*." ++ PyStr.lstrip_dot (PyStr.lower input_format)) (fs w)
         = Raise e) ->
  convert_all_images os wand folder_path input_format output_format
                     width height quality w
  = (Raise e, w).
Proof.
  intros [H|[[H1 H2]|(H1 & H2 & H3)]]; unfold_header.
  - rewrite H; step_header. reflexivity.
  - rewrite H1; step_header. rewrite H2; step_header. reflexivity.
  - rewrite H1; step_header. rewrite H2; step_header. rewrite H3. reflexivity.
Qed.

(** Lines 107-109: with no matching file the run prints one line and
    returns. *)
Lemma convert_all_images_no_match_run
    (folder_path input_format output_format : string)
    (width height quality : option Z) (w : World FS) :
  fs_exists os (of_string folder_path) (fs w) = Ret true ->
  fs_is_dir os (of_string folder_path) (fs w) = Ret true ->
  fs_glob os (of_string folder_path)
          ("*." ++ PyStr.lstrip_dot (PyStr.lower input_format)) (fs w) = Ret [] ->
  convert_all_images os wand folder_path input_format output_format
                     width height quality w
  = (Ret tt,
     mkWorld (fs w)
       (stdout w ++
        [("No " ++ PyStr.upper (PyStr.lstrip_dot (PyStr.lower input_format))
          ++ " files found in '" ++ folder_path ++ "'") ++ newline])
       (trace w)).
Proof.
  intros Hex Hdir Hglob. unfold_header.
  rewrite Hex; step_header. rewrite Hdir; step_header.
  rewrite Hglob. reflexivity.
Qed.

(** With matching files, the run is the banner, then the loop, then the
    three closing lines; an exception of the loop ends it there. *)
Lemma convert_all_images_unfold
    (folder_path input_format output_format : string)
    (width height quality : option Z) (w : World FS)
    (image_file : Path) (rest : list Path) :
  fs_exists os (of_string folder_path) (fs w) = Ret true ->
  fs_is_dir os (of_string folder_path) (fs w) = Ret true ->
  fs_glob os (of_string folder_path)
          ("*." ++ PyStr.lstrip_dot (PyStr.lower input_format)) (fs w)
  = Ret (image_file :: rest) ->
  convert_all_images os wand folder_path input_format output_format
                     width height quality w
  = match convert_loop wand (image_file :: rest)
            (PyStr.lstrip_dot (PyStr.lower output_format)) width height quality 0 0
            (mkWorld (fs w)
               (stdout w ++
                banner folder_path (PyStr.lstrip_dot (PyStr.lower input_format))
                       (PyStr.lstrip_dot (PyStr.lower output_format))
                       width height quality (length (image_file :: rest)))
               (trace w))
    with
    | (Ret (successful, failed), w') =>
        (Ret tt,
         mkWorld (fs w')
           (stdout w' ++
            [(newline ++ "Conversion complete:") ++ newline;
             ("  Successful: " ++ PyStr.str_int successful) ++ newline;
             ("  Failed: " ++ PyStr.str_int failed) ++ newline])
           (trace w'))
    | (Raise e, w') => (Raise e, w')
    end.
Proof.
  intros Hex Hdir Hglob. unfold_header.
  rewrite Hex; step_header. rewrite Hdir; step_header.
  rewrite Hglob. unfold banner.
  destruct (PyStr.truthy width || PyStr.truthy height);
    destruct quality as [q|]; cbn [PyStr.truthy PyStr.or_else];
    try destruct (q =? 0)%Z; step_header;
    rewrite <- ?app_assoc; cbn [app];
    match goal with
    | |- ?lhs = match convert_loop ?a ?b ?c ?d ?e ?f ?g ?h ?wr with _ => _ end =>
        match lhs with
        | context [convert_loop _ _ _ _ _ _ _ _ ?wl] => change wl with wr
        end;
        destruct (convert_loop a b c d e f g h wr) as [[[s0 f0]|e0] w0]
    end;
    step_header; rewrite <- ?app_assoc; reflexivity.
Qed.


(** A batch whose first default output path cannot be computed ends there,
    with the exception of [with_suffix]: one call of [convert_image], no
    request to the library, no closing lines. *)
Lemma convert_all_images_aborts
    (folder_path input_format output_format : string)
    (width height quality : option Z) (w : World FS)
    (image_file : Path) (rest : list Path) (e : exn) :
  fs_exists os (of_string folder_path) (fs w) = Ret true ->
  fs_is_dir os (of_string folder_path) (fs w) = Ret true ->
  image_files_of os folder_path input_format (fs w) = Ret (image_file :: rest) ->
  with_suffix image_file
    ("." ++ PyStr.lower (PyStr.lstrip_dot (PyStr.lower output_format))) = Raise e ->
  convert_all_images os wand folder_path input_format output_format
                     width height quality w
  = (Raise e,
     mkWorld (fs w)
       (stdout w ++
        banner folder_path (PyStr.lstrip_dot (PyStr.lower input_format))
               (PyStr.lstrip_dot (PyStr.lower output_format))
               width height quality (length (image_file :: rest))
        ++ [("  Converting: " ++ name image_file ++ "... ") ++ ""])
       (trace w ++ [EvConvert image_file])).
Proof.
  intros Hex Hdir Hglob Hbad.
  rewrite (convert_all_images_unfold _ _ _ _ _ _ _ _ _ Hex Hdir Hglob).
  cbn [convert_loop]. unfold bind at 1. unfold print_end at 1.
  cbn beta iota zeta delta [fs stdout trace].
  unfold bind at 1.
  match goal with
  | |- context [convert_image wand image_file ?f None ?a ?b ?c ?w0] =>
      pose proof (convert_image_run wand image_file f None a b c w0) as Hrun
  end.
  cbn [output_path_of] in Hrun. rewrite Hbad in Hrun. rewrite Hrun.
  cbn beta iota zeta delta [fs stdout trace].
  rewrite <- !app_assoc. reflexivity.
Qed.

End Batch.

(** ** Suffixes *)

Section Suffix.
Import PyStr.

Lemma substring_full (s : string) : substring 0 (String.length s) s = s.
Proof. induction s as [|c s IH]; cbn; [reflexivity|now rewrite IH]. Qed.

Lemma substring_split (s : string) :
  forall k : nat, (k <= String.length s)%nat ->
    substring 0 k s ++ substring k (String.length s - k) s = s.
Proof.
  induction s as [|c s IH]; intros [|k] Hk; cbn in *; try reflexivity; try lia.
  - now rewrite substring_full.
  - rewrite IH by lia. reflexivity.
Qed.

Lemma length_substring (s : string) :
  forall n m : nat, (n + m <= String.length s)%nat ->
    String.length (substring n m s) = m.
Proof.
  induction s as [|c s IH]; intros [|n] [|m] H; cbn in *; try reflexivity; try lia.
  - rewrite IH by lia. reflexivity.
  - apply IH. lia.
  - apply IH. lia.
Qed.

Lemma rfind_dot_lt (s : string) (i : nat) :
  rfind_dot s = Some i -> (i < String.length s)%nat.
Proof.
  revert i. induction s as [|c s IH]; intros i H; cbn in *; [discriminate|].
  destruct (rfind_dot s) as [j|].
  - inversion H; subst. specialize (IH j eq_refl). lia.
  - destruct (Ascii.eqb c "."); inversion H; subst. lia.
Qed.

(** A name is its stem followed by its suffix. *)
Lemma stem_suffix (nm : string) : stem_of nm ++ suffix_of nm = nm.
Proof.
  unfold stem_of, suffix_of.
  destruct (rfind_dot nm) as [i|] eqn:E.
  - apply rfind_dot_lt in E.
    destruct ((0 <? i)%nat && (i <? String.length nm - 1)%nat).
    + rewrite length_substring by lia.
      replace (String.length nm - (String.length nm - i))%nat with i by lia.
      apply substring_split. lia.
    + cbn [String.length]. rewrite Nat.sub_0_r, substring_full.
      clear. induction nm; cbn; congruence.
  - cbn [String.length]. rewrite Nat.sub_0_r, substring_full.
    clear. induction nm; cbn; congruence.
Qed.

(** What [with_suffix] returns, when it returns: the same directory, and
    the stem of the name followed by the new suffix. *)
Lemma with_suffix_replaces (p o : Path) (sfx : string) :
  with_suffix p sfx = Ret o ->
  o = mkPath (absolute p) (removelast (parts p) ++ [stem_of (name p) ++ sfx]).
Proof.
  unfold with_suffix, suffix, stem_of.
  destruct (contains "/" sfx); [discriminate|].
  destruct (negb (String.eqb sfx "") && negb (startswith "." sfx) || String.eqb sfx ".");
    [discriminate|].
  destruct (String.eqb (name p) ""); [discriminate|].
  destruct (String.eqb (suffix_of (name p)) "") eqn:E; intros H; inversion H; subst.
  - apply String.eqb_eq in E. rewrite E. cbn [String.length].
    rewrite Nat.sub_0_r, substring_full. reflexivity.
  - reflexivity.
Qed.


End Suffix.

(** ** Enumeration on a POSIX tree *)

Section Enumeration.
Import PyStr Posix.

Lemma append_nil_r (s : string) : s ++ "" = s.
Proof. induction s; cbn; congruence. Qed.

Lemma length_append (s t : string) :
  String.length (s ++ t) = (String.length s + String.length t)%nat.
Proof. induction s; cbn; congruence. Qed.

Lemma substring_append_r (s t : string) :
  substring (String.length s) (String.length t) (s ++ t) = t.
Proof. induction s; cbn; [apply substring_full|assumption]. Qed.

Lemma endswith_spec (s t : string) :
  endswith s t = true <-> exists pre, s = pre ++ t.
Proof.
  unfold endswith. rewrite andb_true_iff, Nat.leb_le, String.eqb_eq. split.
  - intros [Hlen Heq].
    exists (substring 0 (String.length s - String.length t) s).
    assert (H := substring_split s (String.length s - String.length t) ltac:(lia)).
    replace (String.length s - (String.length s - String.length t))%nat
      with (String.length t) in H by lia.
    rewrite Heq in H. now symmetry.
  - intros [pre ->]. rewrite length_append. split; [lia|].
    replace (String.length pre + String.length t - String.length t)%nat
      with (String.length pre) by lia.
    apply substring_append_r.
Qed.

Lemma star_spec (k : string -> bool) (s : string) :
  star k s = true <-> exists pre suf, s = pre ++ suf /\ k suf = true.
Proof.
  induction s as [|c s IH]; cbn [star]; rewrite orb_true_iff.
  - split.
    + intros [H|H]; [|discriminate]. exists "", "". split; [reflexivity|assumption].
    + intros (pre & suf & H & Hk). left.
      destruct pre; [cbn in H; subst; assumption|discriminate].
  - rewrite IH. split.
    + intros [H|(pre & suf & -> & Hk)].
      * exists "", (String c s). split; [reflexivity|assumption].
      * exists (String c pre), suf. split; [reflexivity|assumption].
    + intros (pre & suf & H & Hk). destruct pre as [|d pre].
      * cbn in H. subst. left. assumption.
      * cbn in H. inversion H; subst. right. exists pre, suf. split; [reflexivity|assumption].
Qed.

(** Without wildcards a pattern matches itself only. *)
Lemma fnmatch_literal (lit : string) :
  contains "*" lit = false -> contains "?" lit = false ->
  forall s, fnmatch lit s = String.eqb s lit.
Proof.
  induction lit as [|c lit IH]; cbn [contains fnmatch]; intros Hs Hq s.
  - reflexivity.
  - apply orb_false_iff in Hs as [Hs1 Hs2]. apply orb_false_iff in Hq as [Hq1 Hq2].
    rewrite (Ascii.eqb_sym c "*"), Hs1, (Ascii.eqb_sym c "?"), Hq1.
    destruct s as [|d s]; [reflexivity|].
    cbn [String.eqb]. rewrite IH by assumption.
    rewrite (Ascii.eqb_sym c d). reflexivity.
Qed.

(** The pattern [*<lit>] selects the names that end with [lit]. *)
Lemma fnmatch_star_literal (lit s : string) :
  contains "*" lit = false -> contains "?" lit = false ->
  fnmatch ("*" ++ lit) s = endswith s lit.
Proof.
  intros Hs Hq. cbn [append fnmatch]. change (Ascii.eqb "*" "*") with true. cbn iota.
  apply eq_true_iff_eq. rewrite star_spec, endswith_spec. split.
  - intros (pre & suf & -> & Hk). rewrite fnmatch_literal in Hk by assumption.
    apply String.eqb_eq in Hk. subst. now exists pre.
  - intros [pre ->]. exists pre, lit. split; [reflexivity|].
    rewrite fnmatch_literal by assumption. apply String.eqb_refl.
Qed.

End Enumeration.

(** ** Zero dimensions *)

Section ZeroDimension.
Context {FS Image : Type}.
Variable os : Filesystem FS.
Variable wand : Wand FS Image.

Lemma convert_loop_zero_width (output_format : string) (height quality : option Z) :
  forall (image_files : list Path) (successful failed : Z) (w : World FS),
    convert_loop wand image_files output_format (Some 0%Z) height quality
                 successful failed w
    = convert_loop wand image_files output_format None height quality
                   successful failed w.
Proof.
  induction image_files as [|f rest IH]; intros s0 f0 w; [reflexivity|].
  cbn [convert_loop]. unfold bind.
  destruct (print_end ("  Converting: " ++ name f ++ "... ") "" w) as [[[]|e] w1];
    [|reflexivity].
  change (convert_image wand f output_format None (Some 0%Z) height quality w1)
    with (convert_image wand f output_format None None height quality w1).
  destruct (convert_image wand f output_format None None height quality w1)
    as [[[|]|e] w2]; [| |reflexivity].
  - destruct (print "✓" w2) as [[[]|e] w3]; [apply IH|reflexivity].
  - destruct (print "✗" w2) as [[[]|e] w3]; [apply IH|reflexivity].
Qed.

Lemma convert_loop_zero_height (output_format : string) (width quality : option Z) :
  forall (image_files : list Path) (successful failed : Z) (w : World FS),
    convert_loop wand image_files output_format width (Some 0%Z) quality
                 successful failed w
    = convert_loop wand image_files output_format width None quality
                   successful failed w.
Proof.
  induction image_files as [|f rest IH]; intros s0 f0 w; [reflexivity|].
  cbn [convert_loop]. unfold bind.
  destruct (print_end ("  Converting: " ++ name f ++ "... ") "" w) as [[[]|e] w1];
    [|reflexivity].
  change (convert_image wand f output_format None width (Some 0%Z) quality w1)
    with (convert_image wand f output_format None width None quality w1).
  destruct (convert_image wand f output_format None width None quality w1)
    as [[[|]|e] w2]; [| |reflexivity].
  - destruct (print "✓" w2) as [[[]|e] w3]; [apply IH|reflexivity].
  - destruct (print "✗" w2) as [[[]|e] w3]; [apply IH|reflexivity].
Qed.

End ZeroDimension.

(** ** convert_image: exceptions, output path, resize *)

Section ConvertImageClaims.
Context {FS Image : Type}.
Variable wand : Wand FS Image.

(** A call that returns [True] has asked the library to write the output
    path, once. *)
Lemma convert_image_success_saves (input_path : Path) (output_format : string)
    (output_path : option Path) (width height quality : option Z) (w : World FS) :
  fst (convert_image wand input_path output_format output_path
                     width height quality w) = Ret true ->
  exists o, output_path_of input_path output_format output_path = Ret o
    /\ saves (trace (snd (convert_image wand input_path output_format output_path
                                        width height quality w)))
       = (saves (trace w) ++ [str o])%list.
Proof.
  destruct output_path as [p|]; cbn [output_path_of];
    [|destruct (with_suffix input_path ("." ++ PyStr.lower output_format)) eqn:E].
  all: unfold_convert_image; try rewrite E; step_world;
    repeat (split_innermost; step_world);
    intros H; try discriminate H;
    rewrite ?saves_app; cbn [saves flat_map app]; rewrite ?app_nil_r;
    eexists; split; reflexivity.
Qed.

(** C2 (code defect).  The default output path is computed before the
    [try] block is entered: for the output format [a/b] the [ValueError] of
    [with_suffix] leaves [convert_image], whatever the image library does,
    with nothing printed and no boolean returned. *)
Theorem convert_image_raises_ValueError (w : World FS) :
  convert_image wand (of_string "imgs/a.svg") "a/b" None None None None w
  = (Raise (ValueError "Invalid suffix '.a/b'"),
     mkWorld (fs w) (stdout w) (trace w ++ [EvConvert (of_string "imgs/a.svg")])).
Proof.
  exact (convert_image_run wand (of_string "imgs/a.svg") "a/b" None None None None w).
Qed.

(** With an output path at hand (given, or derived without error) the
    call does return a boolean, every exception of the library caught. *)
Lemma convert_image_returns (input_path : Path) (output_format : string)
    (output_path : option Path) (width height quality : option Z) (w : World FS)
    (o : Path) :
  output_path_of input_path output_format output_path = Ret o ->
  exists b : bool,
    fst (convert_image wand input_path output_format output_path
                       width height quality w) = Ret b.
Proof.
  intros Ho.
  pose proof (convert_image_run wand input_path output_format output_path
                                width height quality w) as H.
  rewrite Ho in H. destruct H as (b & fs' & out & evs & -> & _). now exists b.
Qed.

(** C6.  Called without an output path, [convert_image] asks the library
    to write at most one file, and only the input path with the suffix of
    its name replaced by a dot and the lower-cased output format; a call
    that returns [True] has asked for exactly that file. *)
Theorem default_output_path (input_path : Path) (output_format : string)
    (width height quality : option Z) (w : World FS) :
  let r := convert_image wand input_path output_format None width height quality w in
  let target := suffix_replaced input_path ("." ++ PyStr.lower output_format) in
  (exists fs : list string,
      saves (trace (snd r)) = (saves (trace w) ++ fs)%list
      /\ (fs = [] \/ fs = [str target]))
  /\ (fst r = Ret true -> saves (trace (snd r)) = (saves (trace w) ++ [str target])%list).
Proof.
  cbv zeta. split.
  - destruct (convert_image_saves wand input_path output_format None
                                  width height quality w) as (l & Hl & Hcase).
    exists l. split; [exact Hl|].
    destruct Hcase as [->|(o & Ho & ->)]; [now left|right].
    cbn [output_path_of] in Ho. apply with_suffix_replaces in Ho. now subst.
  - intros Htrue.
    destruct (convert_image_success_saves _ _ _ _ _ _ _ Htrue) as (o & Ho & ->).
    cbn [output_path_of] in Ho. apply with_suffix_replaces in Ho. now subst.
Qed.

(** C9, as amended.  Without width and height no resize request is made.
    With positive dimensions, once the output path is at hand and the
    library has opened the image, exactly one resize request is made, with
    the geometry [<width>x<height>], an absent dimension left empty. *)
Theorem resize_request (input_path : Path) (output_format : string)
    (output_path : option Path) (width height quality : option Z) (w : World FS) :
  resizes (trace (snd (convert_image wand input_path output_format output_path
                                     None None quality w)))
  = resizes (trace w)
  /\ forall (o : Path) (img : Image),
      output_path_of input_path output_format output_path = Ret o ->
      wand_open wand (str input_path) (fs w) = Ret img ->
      positive_dim width -> positive_dim height ->
      width <> None \/ height <> None ->
      resizes (trace (snd (convert_image wand input_path output_format output_path
                                         width height quality w)))
      = (resizes (trace w) ++ [(dim width ++ "x" ++ dim height)%string])%list.
Proof.
  split.
  - rewrite convert_image_resizes. cbn [PyStr.truthy orb].
    destruct (output_path_of input_path output_format output_path);
      destruct (wand_open wand (str input_path) (fs w)); apply app_nil_r.
  - intros o img Ho Hopen Hw Hh Hsome.
    rewrite convert_image_resizes, Ho, Hopen.
    destruct width as [a|], height as [b|]; cbn [positive_dim] in Hw, Hh;
      cbn [PyStr.truthy PyStr.or_else dim].
    + destruct (Z.eqb_spec a 0), (Z.eqb_spec b 0); try lia. reflexivity.
    + destruct (Z.eqb_spec a 0); try lia. reflexivity.
    + destruct (Z.eqb_spec b 0); try lia. reflexivity.
    + destruct Hsome; congruence.
Qed.

(** C10.  A width or a height of [0] is treated as an absent one: the
    call runs exactly as with [None] in its place, and with [0] for one
    dimension and nothing for the other no resize request is made. *)
Theorem zero_dimension_is_absent (input_path : Path) (output_format : string)
    (output_path : option Path) (d quality : option Z) (w : World FS) :
  convert_image wand input_path output_format output_path (Some 0%Z) d quality w
  = convert_image wand input_path output_format output_path None d quality w
  /\ convert_image wand input_path output_format output_path d (Some 0%Z) quality w
     = convert_image wand input_path output_format output_path d None quality w
  /\ resizes (trace (snd (convert_image wand input_path output_format output_path
                                        (Some 0%Z) None quality w)))
     = resizes (trace w)
  /\ resizes (trace (snd (convert_image wand input_path output_format output_path
                                        None (Some 0%Z) quality w)))
     = resizes (trace w).
Proof.
  repeat split; try reflexivity.
  all: rewrite convert_image_resizes; cbn [PyStr.truthy Z.eqb negb orb];
    destruct (output_path_of input_path output_format output_path);
    destruct (wand_open wand (str input_path) (fs w)); apply app_nil_r.
Qed.

End ConvertImageClaims.

(** ** convert_all_images: reported conditions *)

Section BatchClaims.
Context {FS Image : Type}.
Variable os : Filesystem FS.
Variable wand : Wand FS Image.





End BatchClaims.

(** ** Runs on the POSIX tree *)

Section PosixClaims.
Import PyStr Posix.

(** C1 (code defect).  Three files of [imgs] match [*.svg]; with the
    output format [a/b] the run enters [convert_image] once, not three
    times, and ends with the [ValueError] of the first call: the library
    receives no request and no count is printed. *)
Theorem batch_stops_at_first_file :
  length (enumerated os "imgs" "svg" imgs3) = 3%nat
  /\ Toy.run_convert_all_images imgs3 "imgs" "svg" "a/b" None None None
     = (Raise (ValueError "Invalid suffix '.a/b'"),
        mkWorld imgs3
          ["Found 3 SVG file(s) in 'imgs'" ++ newline;
           "Converting to A/B..." ++ newline;
           newline;
           "  Converting: a.svg... "]
          [EvConvert (of_string "imgs/a.svg")]).
Proof. split; reflexivity. Qed.

(** C3 (code defect).  When the first call of [convert_image] fails by
    raising, here for the output format [x/y], no later file of the three
    is attempted and the run ends without its closing lines, whatever the
    image library would have answered. *)
Theorem failure_stops_the_batch (Image : Type) (wand : Wand node Image) :
  let r := convert_all_images os wand "imgs" "svg" "x/y" None None None
                              (Toy.start imgs3) in
  image_files_of os "imgs" "svg" imgs3
  = Ret [of_string "imgs/a.svg"; of_string "imgs/b.svg"; of_string "imgs/c.svg"]
  /\ fst r = Raise (ValueError "Invalid suffix '.x/y'")
  /\ attempts (trace (snd r)) = [of_string "imgs/a.svg"]
  /\ stdout (snd r)
     = (banner "imgs" "svg" "x/y" None None None 3
        ++ ["  Converting: a.svg... "])%list.
Proof.
  intros r. subst r.
  rewrite (convert_all_images_aborts os wand "imgs" "svg" "x/y" None None None
             (Toy.start imgs3) (of_string "imgs/a.svg")
             [of_string "imgs/b.svg"; of_string "imgs/c.svg"]
             (ValueError "Invalid suffix '.x/y'")
             eq_refl eq_refl eq_refl eq_refl).
  repeat split.
Qed.

(** The enumeration on a POSIX tree: for a format without metacharacters,
    the entries of the folder itself whose name ends with the dot and the
    format, compared byte for byte. *)
Lemma double_star_without_star (s : string) :
  contains "*" s = false -> double_star s = false.
Proof.
  induction s as [|c s IH]; [reflexivity|].
  cbn [contains]. intros H. apply orb_false_iff in H as [Hc Hs].
  cbn [double_star]. destruct s as [|d s']; [reflexivity|].
  rewrite (Ascii.eqb_sym c "*"), Hc. cbn [andb orb]. exact (IH Hs).
Qed.

Lemma glob_star_dot (root : node) (folder : Path) (f : string)
    (es : list (string * node)) :
  stat folder root = Ret (Some (Dir es)) ->
  glob_literal f = true ->
  glob folder ("*." ++ f) root
  = Ret (map (joinpath folder) (filter (fun nm => endswith nm ("." ++ f)) (map fst es))).
Proof.
  intros Hdir Hlit.
  unfold glob_literal in Hlit. apply negb_true_iff in Hlit.
  repeat (apply orb_false_iff in Hlit as [Hlit ?]).
  unfold glob.
  replace (double_star ("*." ++ f)) with false
    by (symmetry; apply (double_star_without_star ("." ++ f)); exact Hlit).
  rewrite Hdir. do 2 f_equal.
  apply filter_ext. intros nm.
  apply (fnmatch_star_literal ("." ++ f) nm); cbn [append contains];
    [change (Ascii.eqb "*" ".") with false|change (Ascii.eqb "?" ".") with false];
    assumption.
Qed.

(** C4, as amended.  On a POSIX tree, for an input format without glob
    metacharacters or separators, the files selected are exactly the
    entries directly inside the folder, regular files and directories
    alike, in enumeration order, whose name ends, letter case respected,
    with a dot and the input format lower-cased and stripped of its
    leading dots. *)
Theorem image_files_posix (root : node) (folder_path input_format : string)
    (es : list (string * node)) :
  stat (of_string folder_path) root = Ret (Some (Dir es)) ->
  glob_literal (lstrip_dot (lower input_format)) = true ->
  image_files_of os folder_path input_format root
  = Ret (map (joinpath (of_string folder_path))
             (filter (fun nm => endswith nm ("." ++ lstrip_dot (lower input_format)))
                     (map fst es))).
Proof. intros Hdir Hlit. exact (glob_star_dot root _ _ es Hdir Hlit). Qed.

(** C5 (code defect).  Converting [imgs/a.png] to [png] with a width,
    without an output path: the call returns [True] and the source file
    now holds what the library encoded, not what it held before. *)
Theorem same_format_overwrites_source :
  let r := Toy.run_convert_image png_tree (of_string "imgs/a.png") "png" None
                                 (Some 10%Z) None None in
  fst r = Ret true
  /\ saves (trace (snd r)) = [str (of_string "imgs/a.png")]
  /\ read (of_string "imgs/a.png") png_tree = Some "PNGDATA"
  /\ read (of_string "imgs/a.png") (fs (snd r)) = Some "png[10x]:PNGDATA".
Proof. repeat split. Qed.

End PosixClaims.

(** ** The output path of a conversion to the source's own format *)

Section OwnSuffix.
Import PyStr.

Lemma rfind_dot_char (s : string) :
  forall i : nat, rfind_dot s = Some i ->
    exists r, substring i (String.length s - i) s = String "." r.
Proof.
  induction s as [|c s IH]; intros i H; cbn in H; [discriminate|].
  destruct (rfind_dot s) as [j|] eqn:E.
  - inversion H; subst. destruct (IH j eq_refl) as [r Hr].
    exists r. cbn. exact Hr.
  - destruct (Ascii.eqb_spec c "."); inversion H; subst.
    exists s. cbn. now rewrite substring_full.
Qed.

(** A suffix is empty, or a dot followed by at least one character. *)
Lemma suffix_of_shape (nm : string) :
  suffix_of nm = "" \/ exists c r, suffix_of nm = String "." (String c r).
Proof.
  unfold suffix_of. destruct (rfind_dot nm) as [i|] eqn:E; [|now left].
  destruct ((0 <? i)%nat && (i <? String.length nm - 1)%nat) eqn:C; [|now left].
  right. apply andb_true_iff in C as [_ C]. apply Nat.ltb_lt in C.
  destruct (rfind_dot_char nm i E) as [r Hr].
  assert (Hlen : String.length (substring i (String.length nm - i) nm)
                 = (String.length nm - i)%nat)
    by (apply length_substring; apply rfind_dot_lt in E; lia).
  rewrite Hr in *. destruct r as [|c r]; [cbn in Hlen; lia|].
  now exists c, r.
Qed.

(** Replacing the suffix of a path by that same suffix gives the path
    back. *)
Lemma with_suffix_own_suffix (p : Path) :
  suffix p <> "" -> contains "/" (suffix p) = false ->
  with_suffix p (suffix p) = Ret p.
Proof.
  intros Hne Hsep. unfold with_suffix. rewrite Hsep.
  unfold suffix in *.
  destruct (suffix_of_shape (name p)) as [H|(c & r & H)]; [contradiction|].
  assert (Hname : name p <> "") by (intros E; rewrite E in H; discriminate).
  rewrite H at 1 2 3. cbn [String.eqb startswith negb andb orb].
  change (Ascii.eqb "." ".") with true. cbn [andb negb orb].
  destruct (String.eqb_spec (name p) ""); [contradiction|].
  destruct (String.eqb_spec (suffix_of (name p)) ""); [contradiction|].
  fold (stem_of (name p)). rewrite stem_suffix.
  destruct p as [abs ps]. unfold name in *. cbn [parts absolute] in *.
  destruct ps as [|x ps] using rev_ind; [contradiction Hname; reflexivity|].
  rewrite removelast_last, last_last. reflexivity.
Qed.

(** Hence a successful conversion to the format the source already has,
    without an explicit output path, has asked the library to write the
    source file itself. *)
Lemma convert_image_writes_source {FS Image : Type} (wand : Wand FS Image)
    (input_path : Path) (output_format : string)
    (width height quality : option Z) (w : World FS) :
  suffix input_path = "." ++ lower output_format ->
  contains "/" (lower output_format) = false ->
  fst (convert_image wand input_path output_format None width height quality w)
  = Ret true ->
  saves (trace (snd (convert_image wand input_path output_format None
                                   width height quality w)))
  = (saves (trace w) ++ [str input_path])%list.
Proof.
  intros Hsfx Hsep Htrue.
  destruct (convert_image_success_saves wand _ _ _ _ _ _ _ Htrue) as (o & Ho & ->).
  cbn [output_path_of] in Ho. rewrite <- Hsfx in Ho.
  rewrite with_suffix_own_suffix in Ho.
  - inversion Ho. reflexivity.
  - rewrite Hsfx. discriminate.
  - rewrite Hsfx. cbn [append contains]. change (Ascii.eqb "/" ".") with false.
    exact Hsep.
Qed.

End OwnSuffix.

(** ** Concrete runs *)

Section Runs.
Import PyStr Posix.

(** C4, counterexample.  [imgs/A.SVG] lies directly inside [imgs] and its
    extension equals [svg] up to letter case, yet nothing is selected for
    the input format [svg]: the run reports that no SVG file was found. *)
Lemma uppercase_extension_not_selected :
  read (of_string "imgs/A.SVG") upper_tree = Some "<svg>A</svg>"
  /\ extension_matches "A.SVG" "svg" = true
  /\ image_files_of os "imgs" "svg" upper_tree = Ret []
  /\ Toy.run_convert_all_images upper_tree "imgs" "svg" "png" None None None
     = (Ret tt, mkWorld upper_tree ["No SVG files found in 'imgs'" ++ newline] []).
Proof. repeat split. Qed.

(** C4, an instance: the input format [.SVG] on a folder with [A.SVG],
    [a.svg], [a.svg.bak], a directory [icons.svg] and a sub-directory
    holding [b.svg]. *)
Lemma image_files_posix_witness :
  image_files_of os "imgs" ".SVG" mixed_tree
  = Ret [of_string "imgs/a.svg"; of_string "imgs/icons.svg"].
Proof.
  exact (image_files_posix mixed_tree "imgs" ".SVG"
           [("A.SVG", File "<svg>A</svg>"); ("a.svg", File "<svg>a</svg>");
            ("a.svg.bak", File "<svg>a</svg>"); ("icons.svg", Dir []);
            ("sub", Dir [("b.svg", File "<svg>B</svg>")])]
           eq_refl eq_refl).
Defined.

(** C6, an instance: [imgs/a.svg] converted to [PNG] is written to
    [imgs/a.png]. *)
Lemma default_output_path_witness :
  fst (Toy.run_convert_image imgs3 (of_string "imgs/a.svg") "PNG" None None None None)
  = Ret true
  /\ saves (trace (snd (Toy.run_convert_image imgs3 (of_string "imgs/a.svg") "PNG"
                                              None None None None)))
     = ["imgs/a.png"].
Proof.
  split; [reflexivity|].
  exact (proj2 (default_output_path Toy.wand (of_string "imgs/a.svg") "PNG"
                  None None None (Toy.start imgs3)) eq_refl).
Defined.





(** C9, counterexample.  [imgs/b.svg] exists but cannot be decoded: with
    width 100 and height 50 supplied, the call returns [False] after the
    open request alone; no resize request is made. *)
Lemma no_resize_when_open_fails :
  let r := Toy.run_convert_image imgs3 (of_string "imgs/b.svg") "png" None
                                 (Some 100%Z) (Some 50%Z) None in
  fst r = Ret false
  /\ trace (snd r) = [EvConvert (of_string "imgs/b.svg"); EvOpen "imgs/b.svg"]
  /\ resizes (trace (snd r)) = [].
Proof. repeat split. Qed.

(** C9, an instance: [imgs/a.svg] with width 1024 and height 768. *)
Lemma resize_request_witness :
  resizes (trace (snd (Toy.run_convert_image imgs3 (of_string "imgs/a.svg") "png" None
                                             (Some 1024%Z) (Some 768%Z) None)))
  = ["1024x768"].
Proof.
  apply (proj2 (resize_request Toy.wand (of_string "imgs/a.svg") "png" None
                  (Some 1024%Z) (Some 768%Z) None (Toy.start imgs3))
           (of_string "imgs/a.png") (Toy.mkImage "<svg>A</svg>" "" None "")).
  - reflexivity.
  - reflexivity.
  - reflexivity.
  - reflexivity.
  - left. discriminate.
Defined.

(** The scenario of the specification: three SVG files (one of them not
    decodable here) converted to PNG. *)
Example three_svg_files :
  let r := Toy.run_convert_all_images imgs3 "imgs" "svg" "png" None None None in
  fst r = Ret tt
  /\ attempts (trace (snd r))
     = [of_string "imgs/a.svg"; of_string "imgs/b.svg"; of_string "imgs/c.svg"]
  /\ successes (stdout (snd r)) = 2%nat
  /\ failures (stdout (snd r)) = 1%nat
  /\ read (of_string "imgs/c.png") (fs (snd r)) = Some "png[]:<svg>C</svg>"
  /\ read (of_string "imgs/c.svg") (fs (snd r)) = Some "<svg>C</svg>".
Proof. repeat split. Qed.

End Runs.

(* ================================================================== *)
(** * Further properties *)

(** ** Spelling of the formats *)

Section Spelling.
Import PyStr.

Lemma lstrip_dot_cons (c : ascii) (r : string) :
  lstrip_dot (String c r) = if Ascii.eqb c "." then lstrip_dot r else String c r.
Proof. destruct c as [[] [] [] [] [] [] [] []]; reflexivity. Qed.

Lemma lower_ascii_idem (c : ascii) : lower_ascii (lower_ascii c) = lower_ascii c.
Proof. destruct c as [[] [] [] [] [] [] [] []]; reflexivity. Qed.

Lemma lower_ascii_dot (c : ascii) : Ascii.eqb (lower_ascii c) "." = Ascii.eqb c ".".
Proof. destruct c as [[] [] [] [] [] [] [] []]; reflexivity. Qed.

Lemma lower_idem (s : string) : lower (lower s) = lower s.
Proof. induction s as [|c s IH]; cbn; [reflexivity|]. now rewrite lower_ascii_idem, IH. Qed.

Lemma lower_lstrip_dot (s : string) : lower (lstrip_dot s) = lstrip_dot (lower s).
Proof.
  induction s as [|c s IH]; [reflexivity|].
  cbn [lower]. rewrite !lstrip_dot_cons, lower_ascii_dot.
  destruct (Ascii.eqb c "."); [exact IH|reflexivity].
Qed.

Lemma lstrip_dot_idem (s : string) : lstrip_dot (lstrip_dot s) = lstrip_dot s.
Proof.
  induction s as [|c s IH]; [reflexivity|].
  rewrite lstrip_dot_cons. destruct (Ascii.eqb c ".") eqn:E; [exact IH|].
  rewrite lstrip_dot_cons, E. reflexivity.
Qed.

(** The normal form is in lower case already, and normal. *)
Lemma lower_normalize (f : string) : lower (normalize f) = normalize f.
Proof. unfold normalize. now rewrite lower_lstrip_dot, lower_idem. Qed.

Lemma normalize_idem (f : string) : normalize (normalize f) = normalize f.
Proof.
  unfold normalize. now rewrite lower_lstrip_dot, lower_idem, lstrip_dot_idem.
Qed.

Lemma normalize_dot (f : string) : normalize ("." ++ f) = normalize f.
Proof. reflexivity. Qed.

Lemma normalize_lower (f : string) : normalize (lower f) = normalize f.
Proof. unfold normalize. now rewrite lower_idem. Qed.

(** A batch depends on its two formats through their normal forms only. *)
Lemma convert_all_images_ext {FS Image : Type} (os : Filesystem FS) (wand : Wand FS Image)
    (folder_path f1 f2 g1 g2 : string) (width height quality : option Z) (w : World FS) :
  normalize f1 = normalize f2 -> normalize g1 = normalize g2 ->
  convert_all_images os wand folder_path f1 g1 width height quality w
  = convert_all_images os wand folder_path f2 g2 width height quality w.
Proof.
  unfold normalize, convert_all_images. intros Hf Hg. rewrite Hf, Hg. reflexivity.
Qed.

(** X1.  The spelling of the two format arguments is normalised away: a
    batch runs the same with the formats given in normal form (lower-cased,
    leading dots stripped), with a dot in front, or lower-cased
    beforehand. *)
Theorem format_spelling_immaterial {FS Image : Type} (os : Filesystem FS)
    (wand : Wand FS Image) (folder_path input_format output_format : string)
    (width height quality : option Z) (w : World FS) :
  convert_all_images os wand folder_path (normalize input_format)
                     (normalize output_format) width height quality w
  = convert_all_images os wand folder_path input_format output_format
                       width height quality w
  /\ convert_all_images os wand folder_path ("." ++ input_format)
                        ("." ++ output_format) width height quality w
     = convert_all_images os wand folder_path input_format output_format
                          width height quality w
  /\ convert_all_images os wand folder_path (lower input_format)
                        (lower output_format) width height quality w
     = convert_all_images os wand folder_path input_format output_format
                          width height quality w.
Proof.
  repeat split; apply convert_all_images_ext;
    auto using normalize_idem, normalize_dot, normalize_lower.
Qed.

End Spelling.

(** ** One conversion, request by request *)

Section Requests.
Context {FS Image : Type}.
Variable wand : Wand FS Image.

Lemma qualities_app (t u : list event) :
  qualities (t ++ u) = (qualities t ++ qualities u)%list.
Proof. apply flat_map_app. Qed.

Lemma formats_app (t u : list event) :
  formats (t ++ u) = (formats t ++ formats u)%list.
Proof. apply flat_map_app. Qed.


(** X3.  A call that returns [True] has made exactly these requests, in
    this order: open the input path, resize if a dimension is truthy, set
    the quality if one is given, set the lower-cased format, save at the
    output path; and it has printed nothing. *)
Theorem convert_image_success_trace (input_path : Path) (output_format : string)
    (output_path : option Path) (width height quality : option Z) (w : World FS) :
  fst (convert_image wand input_path output_format output_path
                     width height quality w) = Ret true ->
  exists o : Path,
    output_path_of input_path output_format output_path = Ret o
    /\ trace (snd (convert_image wand input_path output_format output_path
                                 width height quality w))
       = (trace w ++ EvConvert input_path
            :: requests_of_success input_path o output_format width height quality)%list
    /\ stdout (snd (convert_image wand input_path output_format output_path
                                  width height quality w)) = stdout w.
Proof.
  unfold requests_of_success.
  destruct output_path as [p|]; cbn [output_path_of];
    [|destruct (with_suffix input_path ("." ++ PyStr.lower output_format)) eqn:E].
  all: unfold_convert_image; try rewrite E; step_world;
    repeat (split_innermost; step_world);
    intros H; try discriminate H;
    eexists; (split; [reflexivity|]);
    rewrite <- ?app_assoc; cbn [app PyStr.truthy orb]; split; reflexivity.
Qed.

(** X4.  The file system changes through a save request only: a call
    that makes none leaves it as it was. *)
Theorem convert_image_frame (input_path : Path) (output_format : string)
    (output_path : option Path) (width height quality : option Z) (w : World FS) :
  saves (trace (snd (convert_image wand input_path output_format output_path
                                   width height quality w)))
  = saves (trace w) ->
  fs (snd (convert_image wand input_path output_format output_path
                         width height quality w)) = fs w.
Proof.
  destruct output_path as [p|]; cbn [output_path_of];
    [|destruct (with_suffix input_path ("." ++ PyStr.lower output_format)) eqn:E].
  all: unfold_convert_image; try rewrite E; step_world;
    repeat (split_innermost; step_world);
    try reflexivity;
    rewrite ?saves_app; cbn [saves flat_map app]; rewrite ?app_nil_r;
    intros H; apply (f_equal (@length string)) in H;
    rewrite length_app in H; cbn [length] in H; lia.
Qed.


(** X6.  A quality is passed on whenever one is given, [0] included (the
    test is [is not None]): in every call whose image opens and whose resize,
    if one is asked for, is served, the quality request is made, with the
    value given. *)
Theorem quality_zero_is_set (input_path : Path) (output_format : string)
    (output_path : option Path) (width height : option Z) (q : Z) (w : World FS)
    (o : Path) (img : Image) :
  output_path_of input_path output_format output_path = Ret o ->
  wand_open wand (str input_path) (fs w) = Ret img ->
  (PyStr.truthy width || PyStr.truthy height = true ->
   exists img' : Image,
     wand_transform wand (PyStr.or_else width "" ++ "x" ++ PyStr.or_else height "") img
     = Ret img') ->
  qualities (trace (snd (convert_image wand input_path output_format output_path
                                       width height (Some q) w)))
  = (qualities (trace w) ++ [q])%list.
Proof.
  intros Ho Hopen Hresize.
  destruct output_path as [p|]; cbn [output_path_of] in Ho.
  all: unfold_convert_image; try rewrite Ho; step_world; rewrite Hopen; step_world;
    destruct (PyStr.truthy width || PyStr.truthy height); step_world;
    try (destruct (Hresize eq_refl) as [img' ->]; step_world);
    repeat (split_innermost; step_world);
    rewrite ?qualities_app; cbn [qualities flat_map app];
    rewrite ?app_nil_r; reflexivity.
Qed.

End Requests.

(** ** The batch, whatever happens *)

Section Invariant.
Context {FS Image : Type}.
Variable os : Filesystem FS.
Variable wand : Wand FS Image.

Lemma batch_request_incl (l1 l2 : list Path) (g : string)
    (width height quality : option Z) (e : event) :
  incl l1 l2 ->
  batch_request l1 g width height quality e -> batch_request l2 g width height quality e.
Proof.
  intros Hincl. destruct e; cbn [batch_request]; try tauto.
  - apply Hincl.
  - apply incl_map, Hincl.
  - apply incl_map, Hincl.
Qed.

(** One call of the loop: its requests are about its file, and the file
    system moves only if a save was asked for. *)
Lemma convert_image_batch_requests (image_file : Path) (g : string)
    (width height quality : option Z) (w : World FS) :
  exists (o : outcome bool) (fs' : FS) (out : list string) (evs : list event),
    convert_image wand image_file (normalize g) None width height quality w
    = (o, mkWorld fs' (stdout w ++ out) (trace w ++ EvConvert image_file :: evs))
    /\ attempts evs = []
    /\ Forall (batch_request [image_file] g width height quality) evs
    /\ (saves evs = [] -> fs' = fs w)
    /\ (forall b : bool, o = Ret b -> derivable (normalize g) image_file).
Proof.
  unfold derivable.
  unfold_convert_image. rewrite !lower_normalize.
  destruct (with_suffix image_file ("." ++ normalize g)) as [o|e] eqn:E; step_world.
  2: { exists (Raise e), (fs w), [], []. rewrite app_nil_r.
       repeat split; [constructor|discriminate]. }
  apply with_suffix_replaces in E. fold (suffix_replaced image_file ("." ++ normalize g)) in E.
  subst o.
  repeat (split_innermost; step_world); rewrite <- ?app_assoc; cbn [app].
  all: first [ eexists (Ret true), _, [], _; rewrite app_nil_r; split; [reflexivity|]
             | eexists (Ret false), _, _, _; split; [reflexivity|] ].
  all: split; [reflexivity|].
  all: split;
    [ repeat (apply Forall_cons || apply Forall_nil); cbn [batch_request map In];
      first [ now left | split; [assumption|reflexivity] | reflexivity | assumption ]
    | split; [ first [ reflexivity | discriminate ] | intros; eexists; reflexivity ] ].
Qed.

(** The loop, without any assumption: the files are entered in order,
    each at most once, up to the first call that raises; every request is
    about a file of the enumeration; and the counters add up when the loop
    returns. *)
Lemma convert_loop_invariant (g : string) (width height quality : option Z)
    (all : list Path) :
  forall (image_files : list Path) (successful failed : Z) (w : World FS),
    incl image_files all ->
    exists (o : outcome (Z * Z)) (fs' : FS) (out : list string) (evs : list event)
           (k : nat),
      convert_loop wand image_files (normalize g) width height quality
                   successful failed w
      = (o, mkWorld fs' (stdout w ++ out) (trace w ++ evs))
      /\ attempts evs = firstn k image_files
      /\ Forall (batch_request all g width height quality) evs
      /\ (saves evs = [] -> fs' = fs w)
      /\ (forall s' f' : Z, o = Ret (s', f') ->
            attempts evs = image_files
            /\ (s' + f' = successful + failed + Z.of_nat (length image_files))%Z
            /\ Forall (derivable (normalize g)) image_files).
Proof.
  induction image_files as [|a rest IH]; intros s0 f0 w Hincl.
  - exists (Ret (s0, f0)), (fs w), [], [], 0%nat.
    cbn [convert_loop]. unfold ret. rewrite !app_nil_r. destruct w.
    split; [reflexivity|]. split; [reflexivity|]. split; [constructor|].
    split; [reflexivity|].
    intros s' f' H; inversion H; subst.
    split; [reflexivity|]. split; [cbn [length Z.of_nat]; lia|constructor].
  - assert (Ha : incl [a] all) by (intros x [<-|[]]; apply Hincl; now left).
    assert (Hrest : incl rest all) by (intros x Hx; apply Hincl; now right).
    cbn [convert_loop]. unfold bind at 1. unfold print_end at 1. step_world.
    unfold bind at 1.
    match goal with
    | |- context [convert_image wand a (normalize g) None width height quality ?w0] =>
        destruct (convert_image_batch_requests a g width height quality w0)
          as (o1 & fs1 & out1 & evs1 & -> & Hatt1 & Hreq1 & Hfs1 & Hder1)
    end.
    step_world. cbn [fs stdout trace] in Hfs1.
    assert (Hreq1' : Forall (batch_request all g width height quality)
                            (EvConvert a :: evs1)).
    { constructor; [cbn; apply Hincl; now left|].
      eapply Forall_impl; [|exact Hreq1]. intros e. now apply batch_request_incl. }
    destruct o1 as [b|e].
    2: { exists (Raise e), fs1; eexists _, (EvConvert a :: evs1), 1%nat.
         split; [rewrite <- ?app_assoc; reflexivity|].
         split; [cbn [attempts flat_map app firstn]; fold (attempts evs1);
                 now rewrite Hatt1|].
         split; [assumption|].
         split; [cbn [saves flat_map app]; exact Hfs1|].
         intros s' f' H; discriminate H. }
    specialize (Hder1 b eq_refl).
    destruct b; unfold bind at 1; unfold print at 1, print_end at 1; step_world;
      (match goal with
       | |- context [convert_loop _ _ _ _ _ _ ?s1 ?f1 ?w1] =>
           destruct (IH s1 f1 w1 Hrest)
             as (o2 & fs2 & out2 & evs2 & k & -> & Hatt2 & Hreq2 & Hfs2 & Hret2)
       end); step_world;
      (exists o2, fs2; eexists _, (EvConvert a :: evs1 ++ evs2)%list, (S k));
      (split; [rewrite <- ?app_assoc; cbn [app]; rewrite <- ?app_assoc; reflexivity|]);
      (split;
         [cbn [attempts flat_map app firstn]; fold (attempts (evs1 ++ evs2));
          rewrite attempts_app, Hatt1, Hatt2; reflexivity|]);
      (split;
         [change (EvConvert a :: evs1 ++ evs2)%list
            with ((EvConvert a :: evs1) ++ evs2)%list;
          apply Forall_app; split; assumption|]);
      (split;
         [cbn [saves flat_map app]; fold (saves (evs1 ++ evs2)); rewrite saves_app;
          intros H; apply app_eq_nil in H as [H1 H2];
          rewrite (Hfs2 H2); cbn [fs]; exact (Hfs1 H1)|]);
      intros s' f' Ho; destruct (Hret2 s' f' Ho) as (Hall & Hsum & Hder);
      (split;
         [cbn [attempts flat_map app]; fold (attempts (evs1 ++ evs2));
          rewrite attempts_app, Hatt1; cbn [app]; f_equal; exact Hall|]);
      (split; [cbn [length]; lia|constructor; assumption]).
Qed.

End Invariant.

Section BatchInvariant.
Context {FS Image : Type}.
Variable os : Filesystem FS.
Variable wand : Wand FS Image.

Lemma enumerated_ret (folder_path input_format : string) (files : FS) (l : list Path) :
  image_files_of os folder_path input_format files = Ret l ->
  enumerated os folder_path input_format files = l.
Proof. unfold enumerated. now intros ->. Qed.

(** Every run of [convert_all_images], in one statement. *)
Lemma convert_all_images_invariant (folder_path input_format output_format : string)
    (width height quality : option Z) (w : World FS) :
  exists (o : outcome unit) (fs' : FS) (out : list string) (evs : list event) (k : nat),
    convert_all_images os wand folder_path input_format output_format
                       width height quality w
    = (o, mkWorld fs' (stdout w ++ out) (trace w ++ evs))
    /\ attempts evs = firstn k (enumerated os folder_path input_format (fs w))
    /\ Forall (batch_request (enumerated os folder_path input_format (fs w))
                             output_format width height quality) evs
    /\ (saves evs = [] -> fs' = fs w)
    /\ (o = Ret tt ->
        fs_exists os (of_string folder_path) (fs w) = Ret true ->
        fs_is_dir os (of_string folder_path) (fs w) = Ret true ->
        attempts evs = enumerated os folder_path input_format (fs w)
        /\ Forall (derivable (normalize output_format))
                  (enumerated os folder_path input_format (fs w))).
Proof.
  assert (Hquiet : forall (o : outcome unit) (line : list string),
             convert_all_images os wand folder_path input_format output_format
                                width height quality w
             = (o, mkWorld (fs w) (stdout w ++ line) (trace w)) ->
             (o = Ret tt ->
              fs_exists os (of_string folder_path) (fs w) = Ret true ->
              fs_is_dir os (of_string folder_path) (fs w) = Ret true ->
              enumerated os folder_path input_format (fs w) = []) ->
             exists (o : outcome unit) (fs' : FS) (out : list string)
                    (evs : list event) (k : nat),
               convert_all_images os wand folder_path input_format output_format
                                  width height quality w
               = (o, mkWorld fs' (stdout w ++ out) (trace w ++ evs))
               /\ attempts evs = firstn k (enumerated os folder_path input_format (fs w))
               /\ Forall (batch_request (enumerated os folder_path input_format (fs w))
                                        output_format width height quality) evs
               /\ (saves evs = [] -> fs' = fs w)
               /\ (o = Ret tt ->
                   fs_exists os (of_string folder_path) (fs w) = Ret true ->
                   fs_is_dir os (of_string folder_path) (fs w) = Ret true ->
                   attempts evs = enumerated os folder_path input_format (fs w)
                   /\ Forall (derivable (normalize output_format))
                             (enumerated os folder_path input_format (fs w)))).
  { intros o line Hrun Hnone.
    exists o, (fs w), line, [], 0%nat. rewrite (app_nil_r (trace w)).
    split; [exact Hrun|]. split; [reflexivity|]. split; [constructor|].
    split; [reflexivity|]. intros Ho Hex Hdir.
    rewrite (Hnone Ho Hex Hdir). split; constructor. }
  assert (Hraise : forall e : exn,
             convert_all_images os wand folder_path input_format output_format
                                width height quality w = (Raise e, w) ->
             convert_all_images os wand folder_path input_format output_format
                                width height quality w
             = (Raise e, mkWorld (fs w) (stdout w ++ []) (trace w))).
  { intros e ->. rewrite app_nil_r. now destruct w. }
  destruct (fs_exists os (of_string folder_path) (fs w)) as [[|]|e] eqn:Hex.
  2: { eapply Hquiet.
       - exact (convert_all_images_invalid_folder_run os wand _ _ _ _ _ _ _
                  (or_introl Hex)).
       - intros _ H; discriminate H. }
  2: { eapply Hquiet.
       - apply Hraise. apply convert_all_images_check_raises. left. exact Hex.
       - intros H; discriminate H. }
  destruct (fs_is_dir os (of_string folder_path) (fs w)) as [[|]|e] eqn:Hdir.
  2: { eapply Hquiet.
       - exact (convert_all_images_invalid_folder_run os wand _ _ _ _ _ _ _
                  (or_intror (conj Hex Hdir))).
       - intros _ _ H; discriminate H. }
  2: { eapply Hquiet.
       - apply Hraise. apply convert_all_images_check_raises. right; left.
         split; [exact Hex|exact Hdir].
       - intros H; discriminate H. }
  destruct (image_files_of os folder_path input_format (fs w)) as [[|a rest]|e] eqn:Hglob.
  - eapply Hquiet.
    + exact (convert_all_images_no_match_run os wand _ _ _ _ _ _ _ Hex Hdir Hglob).
    + intros _ _ _. now apply enumerated_ret.
  - rewrite (enumerated_ret _ _ _ _ Hglob).
    rewrite (convert_all_images_unfold os wand _ _ _ _ _ _ _ _ _ Hex Hdir Hglob).
    fold (normalize input_format). fold (normalize output_format).
    match goal with
    | |- context [convert_loop wand (a :: rest) (normalize output_format)
                               width height quality 0%Z 0%Z ?w0] =>
        destruct (convert_loop_invariant wand output_format width height quality
                    (a :: rest) (a :: rest) 0%Z 0%Z w0 (incl_refl _))
          as (o & fs' & out & evs & k & -> & Hatt & Hreq & Hfs & Hret)
    end.
    cbn [fs stdout trace] in Hfs |- *.
    destruct o as [[s' f']|e].
    + destruct (Hret s' f' eq_refl) as (Hall & _ & Hder).
      eexists (Ret tt), fs',
        (banner folder_path (normalize input_format) (normalize output_format)
                width height quality (length (a :: rest)) ++ out ++ _)%list, evs, k.
      split; [rewrite <- !app_assoc; reflexivity|].
      split; [exact Hatt|]. split; [exact Hreq|]. split; [exact Hfs|].
      intros _ _ _. split; assumption.
    + eexists (Raise e), fs',
        (banner folder_path (normalize input_format) (normalize output_format)
                width height quality (length (a :: rest)) ++ out)%list, evs, k.
      split; [rewrite <- !app_assoc; reflexivity|].
      split; [exact Hatt|]. split; [exact Hreq|]. split; [exact Hfs|].
      intros H; discriminate H.
  - eapply Hquiet.
    + apply Hraise. apply convert_all_images_check_raises. right; right.
      split; [exact Hex|split; [exact Hdir|exact Hglob]].
    + intros H; discriminate H.
Qed.

(** X7.  Whatever the library answers and however the batch ends, every
    request it makes is about a file of the enumeration: calls and opens
    name enumerated files, saves name their default output paths, the
    format passed on is the output format in normal form, the geometry and
    the quality are those of the arguments. *)
Theorem batch_requests_only_enumerated
    (folder_path input_format output_format : string)
    (width height quality : option Z) (w : World FS) :
  exists evs : list event,
    trace (snd (convert_all_images os wand folder_path input_format output_format
                                   width height quality w))
    = (trace w ++ evs)%list
    /\ Forall (batch_request (enumerated os folder_path input_format (fs w))
                             output_format width height quality) evs.
Proof.
  destruct (convert_all_images_invariant folder_path input_format output_format
              width height quality w)
    as (o & fs' & out & evs & k & -> & _ & Hreq & _).
  now exists evs.
Qed.

(** X8.  The files are entered in enumeration order, each at most once:
    the calls of a batch are an initial segment of the enumeration, and all
    of it when the batch returns from a valid folder. *)
Theorem batch_attempts_in_order
    (folder_path input_format output_format : string)
    (width height quality : option Z) (w : World FS) :
  let r := convert_all_images os wand folder_path input_format output_format
                              width height quality w in
  let image_files := enumerated os folder_path input_format (fs w) in
  (exists k : nat,
      attempts (trace (snd r)) = (attempts (trace w) ++ firstn k image_files)%list)
  /\ (fst r = Ret tt ->
      fs_exists os (of_string folder_path) (fs w) = Ret true ->
      fs_is_dir os (of_string folder_path) (fs w) = Ret true ->
      attempts (trace (snd r)) = (attempts (trace w) ++ image_files)%list).
Proof.
  cbv zeta.
  destruct (convert_all_images_invariant folder_path input_format output_format
              width height quality w)
    as (o & fs' & out & evs & k & -> & Hatt & _ & _ & Hret).
  cbn [fst snd trace]. rewrite attempts_app. split.
  - exists k. now rewrite Hatt.
  - intros -> Hex Hdir. destruct (Hret eq_refl Hex Hdir) as [-> _]. reflexivity.
Qed.

(** X9.  A batch changes the file system through save requests only: a
    batch that makes none leaves it as it was. *)
Theorem convert_all_images_frame
    (folder_path input_format output_format : string)
    (width height quality : option Z) (w : World FS) :
  saves (trace (snd (convert_all_images os wand folder_path input_format output_format
                                        width height quality w)))
  = saves (trace w) ->
  fs (snd (convert_all_images os wand folder_path input_format output_format
                              width height quality w)) = fs w.
Proof.
  destruct (convert_all_images_invariant folder_path input_format output_format
              width height quality w)
    as (o & fs' & out & evs & k & -> & _ & _ & Hfs & _).
  cbn [snd trace fs]. rewrite saves_app. intros H. apply Hfs.
  apply (f_equal (@length string)) in H. rewrite length_app in H.
  destruct (saves evs); [reflexivity|cbn [length] in H; lia].
Qed.


End BatchInvariant.

(** ** Where the output goes *)

Section OutputPath.
Import PyStr.

Lemma append_cancel_r (s : string) : forall a b : string, a ++ s = b ++ s -> a = b.
Proof.
  induction a as [|c a IH]; intros [|d b] H; cbn in H.
  - reflexivity.
  - apply (f_equal String.length) in H. cbn in H. rewrite length_append in H. lia.
  - apply (f_equal String.length) in H. cbn in H. rewrite length_append in H. lia.
  - inversion H; subst. f_equal. now apply IH.
Qed.

Lemma parts_of_name (p : Path) :
  name p <> "" -> parts p = (removelast (parts p) ++ [name p])%list.
Proof.
  unfold name. destruct (parts p) as [|x l] using rev_ind; [intros H; now contradiction H|].
  intros _. now rewrite removelast_last, last_last.
Qed.

(** X11.  The default output path lies in the directory of the input
    path: only the last component differs, and it is the stem of the input
    name followed by the dot and the lower-cased format, so that it is
    itself a match of [*.<format>]. *)
Theorem output_alongside_input (input_path o : Path) (output_format : string) :
  output_path_of input_path output_format None = Ret o ->
  absolute o = absolute input_path
  /\ removelast (parts o) = removelast (parts input_path)
  /\ name o = stem_of (name input_path) ++ "." ++ lower output_format
  /\ endswith (name o) ("." ++ lower output_format) = true.
Proof.
  cbn [output_path_of]. intros H. apply with_suffix_replaces in H. subst o.
  assert (Hname : name (mkPath (absolute input_path)
                     (removelast (parts input_path)
                      ++ [stem_of (name input_path) ++ "." ++ lower output_format]))
                  = stem_of (name input_path) ++ "." ++ lower output_format)
    by (unfold name at 1; cbn [parts]; apply last_last).
  rewrite Hname. cbn [absolute parts]. rewrite removelast_last.
  repeat split. apply endswith_spec. now exists (stem_of (name input_path)).
Qed.

(** X12.  Two files with the same suffix never share a default output
    path: conversions of one batch do not overwrite each other's output. *)
Theorem output_paths_distinct (p1 p2 o : Path) (output_format : string) :
  suffix p1 = suffix p2 ->
  output_path_of p1 output_format None = Ret o ->
  output_path_of p2 output_format None = Ret o ->
  p1 = p2.
Proof.
  cbn [output_path_of]. intros Hsfx H1 H2.
  assert (Hn1 : name p1 <> "").
  { intros E. unfold with_suffix in H1. rewrite E in H1. cbn [String.eqb] in H1.
    repeat match type of H1 with (if ?c then _ else _) = _ => destruct c end;
      discriminate H1. }
  assert (Hn2 : name p2 <> "").
  { intros E. unfold with_suffix in H2. rewrite E in H2. cbn [String.eqb] in H2.
    repeat match type of H2 with (if ?c then _ else _) = _ => destruct c end;
      discriminate H2. }
  apply with_suffix_replaces in H1. apply with_suffix_replaces in H2.
  rewrite H1 in H2. inversion H2 as [[Habs Hparts]].
  apply app_inj_tail in Hparts as [Hdir Hname].
  apply append_cancel_r in Hname.
  assert (Hnm : name p1 = name p2).
  { rewrite <- (stem_suffix (name p1)), <- (stem_suffix (name p2)).
    unfold suffix in Hsfx. now rewrite Hname, Hsfx. }
  destruct p1 as [a1 ps1], p2 as [a2 ps2]. cbn [absolute parts] in *.
  f_equal; [exact Habs|].
  pose proof (parts_of_name (mkPath a1 ps1) Hn1) as E1.
  pose proof (parts_of_name (mkPath a2 ps2) Hn2) as E2.
  cbn [parts] in E1, E2.
  transitivity (removelast ps1 ++ [name (mkPath a1 ps1)])%list; [exact E1|].
  rewrite Hdir, Hnm. symmetry. exact E2.
Qed.

(** Without the same suffix they may: a file called [.svg] has no suffix, a
    file called [.svg.svg] has one, and both are sent to [.svg.png]. *)
Example output_paths_collide :
  output_path_of (of_string "imgs/.svg") "png" None
  = output_path_of (of_string "imgs/.svg.svg") "png" None.
Proof. reflexivity. Qed.

End OutputPath.

(** ** Start-up *)

Section StartupProperties.
Import Startup.

Lemma setenv_other (k v k' : string) (env : environ) :
  k' <> k -> setenv k v env k' = env k'.
Proof.
  intros H. unfold setenv. destruct (String.eqb_spec k' k); [contradiction|reflexivity].
Qed.

(** X13.  The start-up leaves every variable other than [MAGICK_HOME] and
    [DYLD_LIBRARY_PATH] alone; it changes nothing and runs no command when
    [MAGICK_HOME] is set already; and it changes nothing when the command
    fails, whatever the exception. *)
Theorem startup_respects_environment (run : list string -> outcome string)
    (env : environ) :
  (forall k : string, k <> "MAGICK_HOME" -> k <> "DYLD_LIBRARY_PATH" ->
     fst (startup run env) k = env k)
  /\ (forall v : string, env "MAGICK_HOME" = Some v -> startup run env = (env, []))
  /\ (forall e : exn, env "MAGICK_HOME" = None -> run brew_prefix = Raise e ->
        startup run env = (env, [brew_prefix])).
Proof.
  split; [|split].
  - intros k Hk1 Hk2. unfold startup.
    destruct (env "MAGICK_HOME"); [reflexivity|]. cbn [fst].
    destruct (run brew_prefix) as [out|e]; [|reflexivity].
    destruct (PyStr.contains NUL (strip out)); [reflexivity|].
    destruct (setenv "MAGICK_HOME" (strip out) env "DYLD_LIBRARY_PATH");
      now rewrite !setenv_other.
  - intros v Hv. unfold startup. now rewrite Hv.
  - intros e Hnone He. unfold startup. now rewrite Hnone, He.
Qed.

(** X14.  When [MAGICK_HOME] is not set and the command succeeds,
    [MAGICK_HOME] becomes its output stripped of surrounding white space, and
    [DYLD_LIBRARY_PATH] the [lib] directory below it, put in front of the
    previous value, if there was one, with a colon between. *)
Theorem startup_sets_paths (run : list string -> outcome string) (env : environ)
    (out : string) :
  env "MAGICK_HOME" = None ->
  run brew_prefix = Ret out ->
  PyStr.contains NUL (strip out) = false ->
  fst (startup run env) "MAGICK_HOME" = Some (strip out)
  /\ fst (startup run env) "DYLD_LIBRARY_PATH"
     = Some match env "DYLD_LIBRARY_PATH" with
            | Some old => path_join (strip out) "lib" ++ ":" ++ old
            | None => path_join (strip out) "lib"
            end.
Proof.
  intros Hnone Hrun Hnul. unfold startup. rewrite Hnone, Hrun, Hnul. cbn [fst].
  replace (setenv "MAGICK_HOME" (strip out) env "DYLD_LIBRARY_PATH")
    with (env "DYLD_LIBRARY_PATH") by reflexivity.
  destruct (env "DYLD_LIBRARY_PATH"); split; reflexivity.
Qed.

(** X15.  Running the start-up a second time changes nothing more: in
    particular the [lib] directory is never put in front of
    [DYLD_LIBRARY_PATH] twice. *)
Theorem startup_idempotent (run : list string -> outcome string) (env : environ)
    (k : string) :
  fst (startup run (fst (startup run env))) k = fst (startup run env) k.
Proof.
  unfold startup at 2 3.
  destruct (env "MAGICK_HOME") as [v|] eqn:Hmh; cbn [fst].
  - unfold startup. now rewrite Hmh.
  - destruct (run brew_prefix) as [out|e] eqn:Hrun.
    + destruct (PyStr.contains NUL (strip out)) eqn:Hnul.
      * unfold startup. now rewrite Hmh, Hrun, Hnul.
      * replace (setenv "MAGICK_HOME" (strip out) env "DYLD_LIBRARY_PATH")
          with (env "DYLD_LIBRARY_PATH") by reflexivity.
        destruct (env "DYLD_LIBRARY_PATH"); reflexivity.
    + unfold startup. now rewrite Hmh, Hrun.
Qed.

End StartupProperties.

(** ** The batch that completes *)

Section Completion.
Context {FS Image : Type}.
Variable os : Filesystem FS.
Variable wand : Wand FS Image.


End Completion.

(** ** Instances *)

Section Instances.
Import PyStr Posix Startup.

Lemma convert_image_success_trace_witness :
  exists o : Path,
    output_path_of (of_string "imgs/a.svg") "PNG" None = Ret o
    /\ trace (snd (Toy.run_convert_image imgs3 (of_string "imgs/a.svg") "PNG" None
                                         (Some 1024%Z) (Some 768%Z) (Some 85%Z)))
       = [EvConvert (of_string "imgs/a.svg"); EvOpen "imgs/a.svg";
          EvTransform "1024x768"; EvQuality 85; EvFormat "png"; EvSave (str o)]
    /\ stdout (snd (Toy.run_convert_image imgs3 (of_string "imgs/a.svg") "PNG" None
                                          (Some 1024%Z) (Some 768%Z) (Some 85%Z)))
       = [].
Proof.
  exact (convert_image_success_trace Toy.wand (of_string "imgs/a.svg") "PNG" None
           (Some 1024%Z) (Some 768%Z) (Some 85%Z) (Toy.start imgs3) eq_refl).
Defined.

Lemma convert_image_frame_witness :
  fs (snd (Toy.run_convert_image imgs3 (of_string "imgs/b.svg") "png" None
                                 None None None)) = imgs3.
Proof.
  exact (convert_image_frame Toy.wand (of_string "imgs/b.svg") "png" None
           None None None (Toy.start imgs3) eq_refl).
Defined.


Lemma quality_zero_is_set_witness :
  qualities (trace (snd (Toy.run_convert_image imgs3 (of_string "imgs/a.svg") "jpg" None
                                               (Some 100%Z) None (Some 0%Z))))
  = [0%Z].
Proof.
  apply (quality_zero_is_set Toy.wand (of_string "imgs/a.svg") "jpg" None
           (Some 100%Z) None 0%Z (Toy.start imgs3) (of_string "imgs/a.jpg")
           (Toy.mkImage "<svg>A</svg>" "" None "")).
  - reflexivity.
  - reflexivity.
  - intros _. eexists. reflexivity.
Defined.

Lemma batch_attempts_in_order_witness :
  attempts (trace (snd (Toy.run_convert_all_images imgs3 "imgs" "svg" "png"
                                                   None None None)))
  = [of_string "imgs/a.svg"; of_string "imgs/b.svg"; of_string "imgs/c.svg"].
Proof.
  exact (proj2 (batch_attempts_in_order os Toy.wand "imgs" "svg" "png" None None None
                  (Toy.start imgs3)) eq_refl eq_refl eq_refl).
Defined.

Lemma convert_all_images_frame_witness :
  fs (snd (Toy.run_convert_all_images corrupt_tree "imgs" "svg" "png" None None None))
  = corrupt_tree.
Proof.
  exact (convert_all_images_frame os Toy.wand "imgs" "svg" "png" None None None
           (Toy.start corrupt_tree) eq_refl).
Defined.


Lemma output_alongside_input_witness :
  absolute (of_string "imgs/a.png") = absolute (of_string "imgs/a.svg")
  /\ removelast (parts (of_string "imgs/a.png")) = removelast (parts (of_string "imgs/a.svg"))
  /\ name (of_string "imgs/a.png") = stem_of (name (of_string "imgs/a.svg")) ++ "." ++ lower "PNG"
  /\ endswith (name (of_string "imgs/a.png")) ("." ++ lower "PNG") = true.
Proof.
  exact (output_alongside_input (of_string "imgs/a.svg") (of_string "imgs/a.png")
           "PNG" eq_refl).
Defined.

Lemma output_paths_distinct_witness :
  of_string "imgs/a.svg" = mkPath false ["imgs"; "a.svg"].
Proof.
  exact (output_paths_distinct (of_string "imgs/a.svg") (mkPath false ["imgs"; "a.svg"])
           (of_string "imgs/a.png") "png" eq_refl eq_refl eq_refl).
Defined.

Lemma startup_respects_environment_witness :
  fst (startup brew_ok dyld_env) "PATH" = Some "/usr/bin".
Proof.
  apply (proj1 (startup_respects_environment brew_ok dyld_env) "PATH"); discriminate.
Defined.

Lemma startup_sets_paths_witness :
  fst (startup brew_ok dyld_env) "MAGICK_HOME" = Some "/opt/homebrew/opt/imagemagick"
  /\ fst (startup brew_ok dyld_env) "DYLD_LIBRARY_PATH"
     = Some "/opt/homebrew/opt/imagemagick/lib:/usr/local/lib".
Proof.
  exact (startup_sets_paths brew_ok dyld_env ("/opt/homebrew/opt/imagemagick" ++ newline)
           eq_refl eq_refl eq_refl).
Defined.


End Instances.
